(** * Flight delay prediction service: the request handlers of [server/app.py]

    A shallow embedding of the two JSON handlers of the Flask application
    ([airports] and [prediction]) together with the fragment of the Python
    runtime they rely on: truthiness, [dict.get], [int()], [list.index],
    [max], exceptions and [try]/[except].  The classifier and the airport
    table are the two injected collaborators of the service and appear as
    parameters. *)

From Stdlib Require Import ZArith QArith Qabs Qminmax Lqa Ascii String List Floats.
From Stdlib Require Import Sorting.Permutation Sorting.Sorted.
From stdpp Require Import base strings gmap list pretty.

Set Warnings "-register-all".

Local Open Scope string_scope.
Local Open Scope Z_scope.
Local Open Scope list_scope.

(** ** The Python runtime fragment *)

Module Py.

(** The exception classes that can arise in the handlers.  [ModelError]
    stands for whatever the classifier itself raises. *)
Inductive exn :=
| TypeError
| ValueError
| OverflowError
| AttributeError
| IndexError
| KeyError
| ModelError.

#[global] Instance exn_eq_dec : EqDecision exn.
Proof. solve_decision. Defined.

(** A Python [float] as produced by [json.loads]: not-a-number, an infinity
    (the JSON texts [Infinity], [-Infinity] and literals such as [1e999]
    that exceed the binary64 range), or a finite binary64 value, which is
    always of the form [m * 2^e] for integers [m] and [e]. *)
Inductive pyfloat :=
| FNaN
| FInf (negative : bool)
| FFinite (m e : Z).

(** The objects [json.loads] returns: [None], [bool], [int], [float],
    [str] (a sequence of code points below 256), [list] and [dict]. *)
Inductive pyobj :=
| PyNone
| PyBool (b : bool)
| PyInt (z : Z)
| PyFloat (f : pyfloat)
| PyStr (s : string)
| PyList (l : list pyobj)
| PyDict (d : gmap string pyobj).

(** A computation that logs events of type [E] (here: calls to the
    classifier) and either raises or returns. *)
Definition py (E A : Type) : Type := list E * (exn + A).

Definition ret {E A} (a : A) : py E A := ([], inr a).
Definition raise {E A} (e : exn) : py E A := ([], inl e).
Definition emit {E} (ev : E) : py E unit := ([ev], inr tt).

Definition bind {E A B} (c : py E A) (k : A -> py E B) : py E B :=
  match c with
  | (t, inl e) => (t, inl e)
  | (t, inr a) => let '(t', r) := k a in (t ++ t', r)
  end.

(** [try: c  except classes: h] *)
Definition try_except {E A} (c : py E A) (classes : list exn) (h : py E A)
  : py E A :=
  match c with
  | (t, inl e) =>
      if bool_decide (e ∈ classes) then let '(t', r) := h in (t ++ t', r)
      else (t, inl e)
  | (t, inr a) => (t, inr a)
  end.

Definition lift {E A} (r : exn + A) : py E A := ([], r).

Definition trace {E A} (c : py E A) : list E := fst c.
Definition outcome {E A} (c : py E A) : exn + A := snd c.

(** Truth value of an object, as tested by [or] and [if]. *)
Definition truthy (v : pyobj) : bool :=
  match v with
  | PyNone => false
  | PyBool b => b
  | PyInt z => negb (z =? 0)
  | PyFloat (FFinite m _) => negb (m =? 0)
  | PyFloat _ => true
  | PyStr s => negb (String.eqb s "")
  | PyList l => match l with [] => false | _ => true end
  | PyDict d => match map_to_list d with [] => false | _ => true end
  end.

(** [a or b] *)
Definition py_or (a b : pyobj) : pyobj := if truthy a then a else b.

(** [obj.get(key, default)]: only a [dict] has the attribute. *)
Definition get {E} (obj : pyobj) (key : string) (default : pyobj)
  : py E pyobj :=
  match obj with
  | PyDict d => ret (from_option id default (d !! key))
  | _ => raise AttributeError
  end.

(** *** [int(str)] in base 10 *)

(** Code points at and above 127 are first rewritten: a Unicode space (NEL
    and NBSP in this range) becomes a blank, anything else a question
    mark. *)
Definition to_ascii_char (c : ascii) : ascii :=
  let n := nat_of_ascii c in
  if (n <? 127)%nat then c
  else if ((n =? 133)%nat || (n =? 160)%nat)%bool then " "%char
  else "?"%char.

Fixpoint transform_decimal_and_space (s : string) : string :=
  match s with
  | EmptyString => EmptyString
  | String c r => String (to_ascii_char c) (transform_decimal_and_space r)
  end.

(** Blank, tab, line feed, vertical tab, form feed, carriage return. *)
Definition is_space (c : ascii) : bool :=
  let n := nat_of_ascii c in
  ((n =? 32) || ((9 <=? n) && (n <=? 13)))%nat%bool.

Definition digit_value (c : ascii) : option Z :=
  let n := nat_of_ascii c in
  if ((48 <=? n) && (n <=? 57))%nat%bool then Some (Z.of_nat (n - 48))
  else None.

Fixpoint skip_spaces (s : string) : string :=
  match s with
  | String c r => if is_space c then skip_spaces r else s
  | EmptyString => s
  end.

(** Scan digits and single separating underscores.  Returns the value, the
    number of digits and the unread rest; fails on a doubled or trailing
    underscore. *)
Fixpoint scan_digits (s : string) (prev_underscore : bool) (acc : Z)
  (ndigits : nat) : option (Z * nat * string) :=
  match s with
  | String c r =>
      match digit_value c with
      | Some d => scan_digits r false (10 * acc + d) (S ndigits)
      | None =>
          if Ascii.eqb c "_" then
            if prev_underscore then None else scan_digits r true acc ndigits
          else if prev_underscore then None else Some (acc, ndigits, s)
      end
  | EmptyString => if prev_underscore then None else Some (acc, ndigits, s)
  end.

Definition read_sign (s : string) : bool * string :=
  match s with
  | String c r =>
      if Ascii.eqb c "+" then (false, r)
      else if Ascii.eqb c "-" then (true, r)
      else (false, s)
  | EmptyString => (false, s)
  end.

Definition starts_with_underscore (s : string) : bool :=
  match s with
  | String c _ => Ascii.eqb c "_"
  | EmptyString => false
  end.

Section IntOfStr.

(** [sys.get_int_max_str_digits()]: the interpreter's cap on the number of
    digits [int(str)] converts; [0] means no cap. *)
Variable int_max_str_digits : nat.

Definition int_of_str (s : string) : option Z :=
  let s := skip_spaces (transform_decimal_and_space s) in
  let '(negative, s) := read_sign s in
  if starts_with_underscore s then None
  else
    match scan_digits s false 0 0 with
    | Some (acc, ndigits, rest) =>
        if (ndigits =? 0)%nat then None
        else if ((0 <? int_max_str_digits) && (int_max_str_digits <? ndigits))%nat%bool
        then None
        else
          match skip_spaces rest with
          | EmptyString => Some (if negative then - acc else acc)
          | _ => None
          end
    | None => None
    end.

(** [int(float)] of a finite value: truncation toward zero. *)
Definition float_trunc (m e : Z) : Z :=
  if 0 <=? e then m * 2 ^ e else Z.quot m (2 ^ (- e)).

(** [int(v)] *)
Definition int (v : pyobj) : exn + Z :=
  match v with
  | PyNone => inl TypeError
  | PyBool b => inr (if b then 1 else 0)
  | PyInt z => inr z
  | PyFloat FNaN => inl ValueError
  | PyFloat (FInf _) => inl OverflowError
  | PyFloat (FFinite m e) => inr (float_trunc m e)
  | PyStr s =>
      match int_of_str s with
      | Some z => inr z
      | None => inl ValueError
      end
  | PyList _ => inl TypeError
  | PyDict _ => inl TypeError
  end.

End IntOfStr.

(** [l.index(x)]: position of the first element equal to [x]. *)
Fixpoint index {A} `{EqDecision A} (l : list A) (x : A) : exn + nat :=
  match l with
  | [] => inl ValueError
  | y :: r =>
      if decide (y = x) then inr 0%nat
      else match index r x with
           | inr i => inr (S i)
           | inl e => inl e
           end
  end.

(** [l[i]] for a non-negative position. *)
Definition subscript {A} (l : list A) (i : nat) : exn + A :=
  match l !! i with
  | Some a => inr a
  | None => inl IndexError
  end.

(** [d[k]], with [k] possibly [None]. *)
Definition getitem {V} (d : gmap Z V) (k : option Z) : exn + V :=
  match k with
  | Some z => match d !! z with Some v => inr v | None => inl KeyError end
  | None => inl KeyError
  end.

(** Arithmetic and comparisons on the [float]s the classifier returns. *)
Class FloatOps (F : Type) := {
  f_of_int : Z -> F;        (* an [int] operand converted to [float] *)
  f_half : F;               (* the literal [0.5] *)
  f_sub : F -> F -> F;
  f_mul : F -> F -> F;
  f_ge : F -> F -> bool;
  f_gt : F -> F -> bool;
}.

(** [max(a, b)]: the first argument unless the second is greater. *)
Definition max {F} `{FloatOps F} (a b : F) : F := if f_gt b a then b else a.

End Py.

Notation "x <- c ;; k" := (Py.bind c (fun x => k))
  (at level 100, c at next level, right associativity).

(** Exact rational arithmetic. *)
#[global] Instance Q_float : Py.FloatOps Q := {|
  Py.f_of_int := inject_Z;
  Py.f_half := (1 # 2)%Q;
  Py.f_sub := Qminus;
  Py.f_mul := Qmult;
  Py.f_ge := fun x y => Qle_bool y x;
  Py.f_gt := fun x y => negb (Qle_bool x y);
|}.

(** IEEE 754 binary64, the arithmetic of the interpreter. *)
Definition binary64_of_int (z : Z) : float :=
  if z <? 0 then PrimFloat.opp (PrimFloat.of_uint63 (Uint63.of_Z (- z)))
  else PrimFloat.of_uint63 (Uint63.of_Z z).

#[global] Instance binary64_float : Py.FloatOps float := {|
  Py.f_of_int := binary64_of_int;
  Py.f_half := 0.5%float;
  Py.f_sub := PrimFloat.sub;
  Py.f_mul := PrimFloat.mul;
  Py.f_ge := fun x y => PrimFloat.leb y x;
  Py.f_gt := fun x y => PrimFloat.ltb y x;
|}.

(** ** server/app.py *)

Module App.
Import Py.

Definition DOW_NAME_MAP : gmap Z string :=
  <[1 := "Monday"]> (<[2 := "Tuesday"]> (<[3 := "Wednesday"]>
  (<[4 := "Thursday"]> (<[5 := "Friday"]> (<[6 := "Saturday"]>
  (<[7 := "Sunday"]> ∅)))))).

(** One row of the frame handed to the classifier. *)
Record features := {
  Carrier : pyobj;
  OriginAirportID : Z;
  DestAirportID : option Z;
  DayOfWeekName : string;
}.

(** A class label of the classifier. *)
Inductive label :=
| LInt (z : Z)
| LStr (s : string).

#[global] Instance label_eq_dec : EqDecision label.
Proof. solve_decision. Defined.

(** The classifier: [predict_proba] over a frame of rows, and the optional
    attribute [classes_]. *)
Record Classifier (F : Type) := {
  predict_proba : list features -> exn + list (list F);
  classes_ : option (list label);
}.
Arguments predict_proba {F}.
Arguments classes_ {F}.

(** One row of the airport table, and one entry of the listing. *)
Record airport := {
  airport_id : Z;
  airport_name : string;
}.

(** The echoed ["input"] object of a prediction. *)
Record prediction_input := {
  input_airport_id : option Z;
  input_day_of_week : option Z;
  input_carrier : pyobj;
  input_origin_airport_id : Z;
}.

Record prediction_result (F : Type) := {
  input : prediction_input;
  prediction_label : string;
  delay_probability : F;
  delay_probability_percent : F;
  model_confidence_percent : F;
}.
Arguments input {F}.
Arguments prediction_label {F}.
Arguments delay_probability {F}.
Arguments delay_probability_percent {F}.
Arguments model_confidence_percent {F}.

(** The JSON bodies the handlers produce. *)
Inductive body (F : Type) :=
| Health (status : string)
| Airports (airports : list airport) (count : nat)
| Errors (errors : gmap string string)
| Prediction (result : prediction_result F).
Arguments Health {F}.
Arguments Airports {F}.
Arguments Errors {F}.
Arguments Prediction {F}.

(** A handler returns the pair of a body and a status code. *)
Definition response (F : Type) : Type := body F * Z.

(** The local variables of [prediction] after the validation block.  The
    variable [airport_id] carries a trailing underscore to keep it apart
    from the column of the airport table. *)
Record validated := {
  errors : gmap string string;
  airport_id_ : option Z;
  day_of_week : option Z;
  carrier : pyobj;
  origin_airport_id : Z;
}.

(** A request handler; its events are the frames submitted to the
    classifier. *)
Definition handler (A : Type) : Type := py (list features) A.

Definition health {F} : response F := (Health "ok", 200).

Section Airports.

(** [DataFrame.sort_values("airport_name")] belongs to the table, with the
    table's own comparison of names. *)
Variable sort_values : list airport -> list airport.

Definition airports {F} (df : list airport) : response F :=
  let sorted_df := sort_values df in
  let records :=
    map (fun row => {| airport_id := airport_id row;
                       airport_name := airport_name row |}) sorted_df in
  (Airports records (length records), 200).

End Airports.

Section Prediction.

Context {F : Type} `{FloatOps F}.
Variable int_max_str_digits : nat.

(** [request.get_json(silent=True)]: the parsed body, or [None] when there
    is no body or it is not JSON. *)
Definition get_json_silent (request_json : option pyobj) : pyobj :=
  from_option id PyNone request_json.

(** Lines 211-235. *)
Definition validate (payload : pyobj) : handler validated :=
  airport_id_raw <- get payload "airport_id" PyNone ;;
  day_of_week_raw <- get payload "day_of_week" PyNone ;;
  carrier <- get payload "carrier" (PyStr "UNKNOWN") ;;
  origin_airport_id_raw <- get payload "origin_airport_id" (PyInt 0) ;;
  let errors : gmap string string := ∅ in
  airport_id <-
    try_except (z <- lift (int int_max_str_digits airport_id_raw) ;; ret (Some z))
      [TypeError; ValueError] (ret None) ;;
  let errors :=
    match airport_id with
    | None => <["airport_id" := "airport_id is required"]> errors
    | Some _ => errors
    end in
  day_of_week <-
    try_except (z <- lift (int int_max_str_digits day_of_week_raw) ;; ret (Some z))
      [TypeError; ValueError] (ret None) ;;
  let errors :=
    match day_of_week with
    | None => <["day_of_week" := "day_of_week is required"]> errors
    | Some d =>
        match DOW_NAME_MAP !! d with
        | None =>
            <["day_of_week" := "day_of_week must be an integer between 1 and 7"]> errors
        | Some _ => errors
        end
    end in
  origin_airport_id <-
    try_except (lift (int int_max_str_digits origin_airport_id_raw))
      [TypeError; ValueError] (ret 0) ;;
  ret {| errors := errors; airport_id_ := airport_id;
         day_of_week := day_of_week; carrier := carrier;
         origin_airport_id := origin_airport_id |}.

(** Lines 254-257. *)
Definition find_delayed_index (classes : list label) (proba : list F)
  : handler nat :=
  try_except (lift (index classes (LInt 1))) [ValueError]
    (ret (if (1 <? length proba)%nat then 1%nat else 0%nat)).

(** Lines 240-279. *)
Definition predict (model : Classifier F) (v : validated)
  : handler (response F) :=
  name <- lift (getitem DOW_NAME_MAP (day_of_week v)) ;;
  let features :=
    [ {| Carrier := carrier v;
         OriginAirportID := origin_airport_id v;
         DestAirportID := airport_id_ v;
         DayOfWeekName := name |} ] in
  _ <- emit features ;;
  rows <- lift (predict_proba model features) ;;
  proba <- lift (subscript rows 0) ;;
  let classes := from_option id [LInt 0; LInt 1] (classes_ model) in
  delayed_index <- find_delayed_index classes proba ;;
  delay_probability <- lift (subscript proba delayed_index) ;;
  let confidence :=
    max delay_probability (f_sub (f_of_int 1) delay_probability) in
  let prediction_label :=
    if f_ge delay_probability f_half then "delayed" else "on_time" in
  ret (Prediction
         {| input :=
              {| input_airport_id := airport_id_ v;
                 input_day_of_week := day_of_week v;
                 input_carrier := carrier v;
                 input_origin_airport_id := origin_airport_id v |};
            prediction_label := prediction_label;
            delay_probability := delay_probability;
            delay_probability_percent := f_mul delay_probability (f_of_int 100);
            model_confidence_percent := f_mul confidence (f_of_int 100) |},
       200).

(** The handler of [POST /prediction]. *)
Definition prediction (model : Classifier F) (request_json : option pyobj)
  : handler (response F) :=
  let payload := py_or (get_json_silent request_json) (PyDict ∅) in
  v <- validate payload ;;
  if bool_decide (errors v ≠ ∅) then ret (Errors (errors v), 400)
  else predict model v.

End Prediction.

End App.

(** ** server/app.py: start-up, the response hook and the entry point *)

Module Startup.
Import Py App.

(** A file-system path, as its components. *)
Definition path : Type := list string.

Section Paths.

(** [Path(__file__).resolve().parent.parent] *)
Variable BASE_DIR : path.

Definition ARTIFACTS_DIR : path := BASE_DIR ++ ["artifacts"].
Definition MODEL_PATH : path := ARTIFACTS_DIR ++ ["delay_probability_model.joblib"].
Definition AIRPORTS_PATH : path := ARTIFACTS_DIR ++ ["airports_mapping.csv"].

End Paths.

(** What start-up can raise: [FileNotFoundError] with its message path, or
    whatever a loader raises. *)
Inductive startup_exn :=
| FileNotFoundError (p : path)
| LoaderError (e : exn).

(** The loader calls of a start-up, in order. *)
Inductive loader_call :=
| Load (p : path)
| ReadCsv (p : path).

(** A start-up computation: the loader calls made, and the exception or
    the value. *)
Definition startup (A : Type) : Type := list loader_call * (startup_exn + A).

(** [app.config], with the two entries the handlers read. *)
Record app_config (F : Type) := {
  DELAY_MODEL : Classifier F;
  AIRPORTS_DF : list airport;
}.
Arguments DELAY_MODEL {F}.
Arguments AIRPORTS_DF {F}.

Section CreateApp.

Context {F : Type}.
Variable BASE_DIR : path.

(** [Path.exists], [joblib.load] and [pandas.read_csv] belong to the
    platform. *)
Variable path_exists : path -> bool.
Variable load : path -> exn + Classifier F.
Variable read_csv : path -> exn + list airport.

Definition load_model : startup (Classifier F) :=
  if negb (path_exists (MODEL_PATH BASE_DIR))
  then ([], inl (FileNotFoundError (MODEL_PATH BASE_DIR)))
  else ([Load (MODEL_PATH BASE_DIR)],
        match load (MODEL_PATH BASE_DIR) with
        | inl e => inl (LoaderError e)
        | inr model => inr model
        end).

Definition load_airports : startup (list airport) :=
  if negb (path_exists (AIRPORTS_PATH BASE_DIR))
  then ([], inl (FileNotFoundError (AIRPORTS_PATH BASE_DIR)))
  else ([ReadCsv (AIRPORTS_PATH BASE_DIR)],
        match read_csv (AIRPORTS_PATH BASE_DIR) with
        | inl e => inl (LoaderError e)
        | inr df => inr df
        end).

(** Lines 99-101: the model is loaded first, then the airport table. *)
Definition create_app : startup (app_config F) :=
  match load_model with
  | (t, inl e) => (t, inl e)
  | (t, inr model) =>
      match load_airports with
      | (t', inl e) => (t ++ t', inl e)
      | (t', inr airports_df) =>
          (t ++ t', inr {| DELAY_MODEL := model; AIRPORTS_DF := airports_df |})
      end
  end.

End CreateApp.

(** A response object as the hook sees it; [B] is the type of its body. *)
Record response_object (B : Type) := {
  response_body : B;
  response_status : Z;
  response_headers : list (string * string);
}.
Arguments response_body {B}.
Arguments response_status {B}.
Arguments response_headers {B}.

(** [response.headers.add(key, value)]: a further header line, after the
    existing ones. *)
Definition headers_add {B} (response : response_object B) (key value : string)
  : response_object B :=
  {| response_body := response_body response;
     response_status := response_status response;
     response_headers := response_headers response ++ [(key, value)] |}.

Definition after_request {B} (response : response_object B)
  : response_object B :=
  let response := headers_add response "Access-Control-Allow-Origin" "*" in
  let response :=
    headers_add response "Access-Control-Allow-Headers"
      "Content-Type,Authorization" in
  response.

(** Line 290: [int(os.environ.get("PORT", 5000))]. *)
Definition port (int_max_str_digits : nat) (environ : gmap string string)
  : exn + Z :=
  int int_max_str_digits (from_option PyStr (PyInt 5000) (environ !! "PORT")).

End Startup.

(** ** Vocabulary of the statements *)

Import Py App.

(** The raw value [payload.get(key)] reads from a JSON object. *)
Definition raw_field (d : gmap string pyobj) (key : string) (default : pyobj)
  : pyobj :=
  from_option id default (d !! key).

(** What an [int()] conversion guarded by [except (TypeError, ValueError)]
    leaves in the variable: the integer, or the handler's fallback. *)
Definition guarded {A} (r : exn + Z) (ok : Z -> A) (fallback : A) (a : A)
  : Prop :=
  (exists z, r = inr z /\ a = ok z) \/
  ((r = inl TypeError \/ r = inl ValueError) /\ a = fallback).

(** The conversion is refused with one of the two exceptions the handler
    catches. *)
Definition refused (r : exn + Z) : Prop :=
  r = inl TypeError \/ r = inl ValueError.

(** The [errors] dictionary built from the two required fields. *)
Definition errors_of (airport_id day_of_week : option Z)
  : gmap string string :=
  let errors : gmap string string := ∅ in
  let errors :=
    match airport_id with
    | None => <["airport_id" := "airport_id is required"]> errors
    | Some _ => errors
    end in
  match day_of_week with
  | None => <["day_of_week" := "day_of_week is required"]> errors
  | Some d =>
      match DOW_NAME_MAP !! d with
      | None =>
          <["day_of_week" := "day_of_week must be an integer between 1 and 7"]> errors
      | Some _ => errors
      end
  end.

(** The empty JSON object and a few request bodies used below. *)
Definition empty_object : pyobj := PyDict ∅.

Definition infinity : pyobj := PyFloat (FInf false).

Definition object_of (fields : list (string * pyobj)) : pyobj :=
  PyDict (list_to_map fields).

(** The two outcomes of the [airport_id] check in the local variables. *)
Definition airport_id_accepted (v : validated) (z : Z) : Prop :=
  airport_id_ v = Some z /\ errors v !! "airport_id" = None.

Definition airport_id_rejected (v : validated) : Prop :=
  airport_id_ v = None /\
  errors v !! "airport_id" = Some "airport_id is required".

(** The weekday names in the order of their ordinals 1..7. *)
Definition weekday_names : list string :=
  ["Monday"; "Tuesday"; "Wednesday"; "Thursday"; "Friday"; "Saturday";
   "Sunday"].

(** A classifier that always fails, for requests that never reach it. *)
Definition failing_model : Classifier Q :=
  {| predict_proba := fun _ => inl ModelError; classes_ := None |}.

(** A classifier with the labels [[0, 1]] answering [[0.7, 0.3]]. *)
Definition sample_model : Classifier Q :=
  {| predict_proba := fun _ => inr [[(7 # 10)%Q; (3 # 10)%Q]];
     classes_ := Some [LInt 0; LInt 1] |}.

(** The frame [prediction] submits for the validated variables [v] and a
    weekday name. *)
Definition frame_of (v : validated) (name : string) : list features :=
  [ {| Carrier := carrier v;
       OriginAirportID := origin_airport_id v;
       DestAirportID := airport_id_ v;
       DayOfWeekName := name |} ].

(** The class labels [prediction] reads from the classifier. *)
Definition classes_of {F} (model : Classifier F) : list label :=
  from_option id [LInt 0; LInt 1] (classes_ model).

(** The laws of float arithmetic the statements about probabilities rely
    on.  [value] reads a finite float as the rational it denotes; [round]
    is the rounding of an exact result to the format.  Rounding is
    monotone and keeps 0.5 and the integers up to 2^53; an operation whose
    exact result is within the finite range returns the rounded exact
    result; comparisons of finite floats are those of their rationals.
    Exact rational arithmetic satisfies the laws with the identity as
    rounding ([Q_float_laws]); they are the properties IEEE 754 arithmetic
    with rounding to nearest has on finite values. *)
Record FloatLaws {F : Type} `{FloatOps F}
  (value : F -> option Q) (round : Q -> Q) : Prop := {
  round_monotone : forall a b, (a <= b)%Q -> (round a <= round b)%Q;
  round_half : (round (1 # 2) == 1 # 2)%Q;
  round_int : forall z,
    Z.abs z <= 2 ^ 53 -> (round (inject_Z z) == inject_Z z)%Q;
  value_of_int : forall z,
    Z.abs z <= 2 ^ 53 ->
    exists q, value (f_of_int z) = Some q /\ (q == inject_Z z)%Q;
  value_half : exists q, value f_half = Some q /\ (q == 1 # 2)%Q;
  value_sub : forall x y a b,
    value x = Some a -> value y = Some b ->
    (Qabs (a - b) <= inject_Z (2 ^ 1023))%Q ->
    exists c, value (f_sub x y) = Some c /\ (c == round (a - b))%Q;
  value_mul : forall x y a b,
    value x = Some a -> value y = Some b ->
    (Qabs (a * b) <= inject_Z (2 ^ 1023))%Q ->
    exists c, value (f_mul x y) = Some c /\ (c == round (a * b))%Q;
  value_ge : forall x y a b,
    value x = Some a -> value y = Some b -> f_ge x y = Qle_bool b a;
  value_gt : forall x y a b,
    value x = Some a -> value y = Some b -> f_gt x y = negb (Qle_bool a b);
}.

(** A sample table: names compared by code points and sorted by
    insertion. *)
Fixpoint insert_by_name (row : airport) (l : list airport) : list airport :=
  match l with
  | [] => [row]
  | x :: r =>
      if String.leb (airport_name row) (airport_name x) then row :: l
      else x :: insert_by_name row r
  end.

Definition sort_by_name (df : list airport) : list airport :=
  foldr insert_by_name [] df.

Definition by_name (name_le : string -> string -> Prop) (a b : airport)
  : Prop :=
  name_le (airport_name a) (airport_name b).

Definition code_point_le (a b : string) : Prop := String.leb a b = true.

Definition sample_airports : list airport :=
  [ {| airport_id := 12892; airport_name := "Los Angeles International" |};
    {| airport_id := 10397; airport_name := "Hartsfield-Jackson Atlanta" |};
    {| airport_id := 13930; airport_name := "Chicago O'Hare International" |} ].

(** The raw value is an infinite float. *)
Definition is_infinite (v : pyobj) : Prop :=
  exists negative, v = PyFloat (FInf negative).

(** A binary64 classifier with the labels [[0, 1]] answering [[0.7, 0.3]]
    (the nearest binary64 values, written in hexadecimal). *)
Definition sample_model_binary64 : Classifier float :=
  {| predict_proba :=
       fun _ => inr [[0x1.6666666666666p-1%float; 0x1.3333333333333p-2%float]];
     classes_ := Some [LInt 0; LInt 1] |}.

(** The request of the end-to-end example. *)
Definition sample_request : pyobj :=
  object_of [("airport_id", PyInt 12892); ("day_of_week", PyInt 1);
             ("carrier", PyStr "DL"); ("origin_airport_id", PyInt 15304)].

(** The two header lines the response hook adds. *)
Definition cors_headers : list (string * string) :=
  [("Access-Control-Allow-Origin", "*");
   ("Access-Control-Allow-Headers", "Content-Type,Authorization")].

(** The four fields of a request object that [prediction] reads. *)
Definition same_fields (d d' : gmap string pyobj) : Prop :=
  d !! "airport_id" = d' !! "airport_id" /\
  d !! "day_of_week" = d' !! "day_of_week" /\
  d !! "carrier" = d' !! "carrier" /\
  d !! "origin_airport_id" = d' !! "origin_airport_id".

(** A table with both artifacts present and loaders that return the sample
    classifier and the sample table. *)
Definition sample_exists (p : Startup.path) : bool := true.

Definition sample_load (p : Startup.path) : exn + Classifier Q :=
  inr sample_model.

Definition sample_read_csv (p : Startup.path) : exn + list airport :=
  inr sample_airports.

(** ** Facts about the runtime fragment *)

Lemma int_raises n v e :
  int n v = inl e -> e = TypeError \/ e = ValueError \/ e = OverflowError.
Proof.
  destruct v as [| | |[]| s | |]; simpl; try (intros [= <-]; auto); try done.
  destruct (int_of_str n s); [done|]. intros [= <-]; auto.
Qed.

Lemma int_overflow_iff n v :
  int n v = inl OverflowError <-> exists neg, v = PyFloat (FInf neg).
Proof.
  split.
  - destruct v as [| | |[]| s | |]; simpl; try discriminate; eauto.
    destruct (int_of_str n s); discriminate.
  - intros [neg ->]. reflexivity.
Qed.

(** [int(str)] on a few literals, as the interpreter answers them. *)
Example int_of_str_accepts :
  int_of_str 4300 "12892" = Some 12892 /\
  int_of_str 4300 " 12 " = Some 12 /\
  int_of_str 4300 "+1_0" = Some 10 /\
  int_of_str 4300 "-42" = Some (-42) /\
  int_of_str 4300 "007" = Some 7 /\
  int_of_str 4300 "-0" = Some 0.
Proof. by repeat split. Qed.

Example int_of_str_refuses :
  int_of_str 4300 "" = None /\
  int_of_str 4300 "abc" = None /\
  int_of_str 4300 "12.0" = None /\
  int_of_str 4300 "1e3" = None /\
  int_of_str 4300 "0x10" = None /\
  int_of_str 4300 "1__0" = None /\
  int_of_str 4300 "_1" = None /\
  int_of_str 4300 "1_" = None /\
  int_of_str 4300 "- 1" = None /\
  int_of_str 4300 "1 2" = None /\
  int_of_str 2 "123" = None.
Proof. by repeat split. Qed.

Example int_of_float_truncates :
  int 4300 (PyFloat (FFinite 7 (-1))) = inr 3 /\
  int 4300 (PyFloat (FFinite (-7) (-1))) = inr (-3) /\
  int 4300 (PyFloat (FFinite 3 2)) = inr 12 /\
  int 4300 (PyFloat FNaN) = inl ValueError /\
  int 4300 (PyFloat (FInf true)) = inl OverflowError.
Proof. by repeat split. Qed.

Lemma DOW_NAME_MAP_lookup (d : Z) :
  DOW_NAME_MAP !! d =
    if bool_decide (1 <= d <= 7)
    then Some (nth (Z.to_nat (d - 1)) weekday_names "")
    else None.
Proof.
  unfold DOW_NAME_MAP.
  case_bool_decide as Hd.
  - assert (d = 1 \/ d = 2 \/ d = 3 \/ d = 4 \/ d = 5 \/ d = 6 \/ d = 7)
      as Hc by lia.
    destruct Hc as [->|[->|[->|[->|[->|[->| ->]]]]]]; reflexivity.
  - repeat (rewrite lookup_insert_ne by lia). apply lookup_empty.
Qed.

Lemma DOW_NAME_MAP_None (d : Z) :
  DOW_NAME_MAP !! d = None <-> ~ (1 <= d <= 7).
Proof.
  rewrite DOW_NAME_MAP_lookup. case_bool_decide; split; intros; try done.
Qed.

(** ** Facts about the validation block *)

Ltac unfold_handler :=
  unfold prediction, predict, validate, find_delayed_index, get, bind,
    try_except, lift, ret, raise, emit, trace, outcome in *.

Ltac split_int H :=
  match goal with
  | |- context [int ?n ?v] =>
      let e := fresh "e" in
      destruct (int n v) as [e|?] eqn:H;
      [ let He := fresh "He" in
        pose proof (int_raises _ _ _ H) as He;
        destruct He as [->|[->| ->]] | ]
  end.

Section ValidationFacts.

Variable n : nat.

Lemma validate_not_dict payload :
  (forall d, payload <> PyDict d) ->
  validate n payload = raise AttributeError.
Proof.
  intros Hd. destruct payload; try reflexivity. by destruct (Hd d).
Qed.

Lemma validate_inv d t v :
  validate n (PyDict d) = (t, inr v) ->
  t = [] /\
  guarded (int n (raw_field d "airport_id" PyNone)) Some None (airport_id_ v) /\
  guarded (int n (raw_field d "day_of_week" PyNone)) Some None (day_of_week v) /\
  carrier v = raw_field d "carrier" (PyStr "UNKNOWN") /\
  guarded (int n (raw_field d "origin_airport_id" (PyInt 0))) id 0
    (origin_airport_id v) /\
  errors v = errors_of (airport_id_ v) (day_of_week v).
Proof.
  unfold_handler. simpl. fold (raw_field d "airport_id" PyNone).
  fold (raw_field d "day_of_week" PyNone).
  fold (raw_field d "origin_airport_id" (PyInt 0)).
  fold (raw_field d "carrier" (PyStr "UNKNOWN")).
  unfold guarded.
  split_int Ha; simpl; try discriminate;
    (split_int Hd; simpl; try discriminate);
    (split_int Ho; simpl; try discriminate);
    intros [= <- <-]; simpl; unfold errors_of;
    repeat split; eauto 6.
Qed.

Lemma validate_complete d :
  int n (raw_field d "airport_id" PyNone) <> inl OverflowError ->
  int n (raw_field d "day_of_week" PyNone) <> inl OverflowError ->
  int n (raw_field d "origin_airport_id" (PyInt 0)) <> inl OverflowError ->
  exists v, validate n (PyDict d) = ([], inr v).
Proof.
  intros Hna Hnd Hno. unfold_handler. simpl.
  fold (raw_field d "airport_id" PyNone).
  fold (raw_field d "day_of_week" PyNone).
  fold (raw_field d "origin_airport_id" (PyInt 0)).
  split_int Ha; simpl; try done;
    (split_int Hd; simpl; try done);
    (split_int Ho; simpl; try done);
    eauto.
Qed.

Lemma validate_trace payload : trace (validate n payload) = [].
Proof.
  destruct payload; try reflexivity.
  destruct (validate n (PyDict d)) as [t [e|v]] eqn:Hv.
  - revert Hv. unfold_handler. simpl.
    split_int Ha; simpl; try (by intros [= <- _]);
      (split_int Hd; simpl; try (by intros [= <- _]));
      (split_int Ho; simpl; try (by intros [= <- _])).
  - by destruct (validate_inv _ _ _ Hv) as [-> _].
Qed.

End ValidationFacts.

(** ** Facts about the [errors] dictionary *)

Lemma errors_of_airport_id a d :
  errors_of a d !! "airport_id" =
    match a with
    | None => Some "airport_id is required"
    | Some _ => None
    end.
Proof.
  unfold errors_of.
  destruct a as [x|], d as [z|]; try destruct (DOW_NAME_MAP !! z);
    by simplify_map_eq.
Qed.

Lemma errors_of_day_of_week a d :
  errors_of a d !! "day_of_week" =
    match d with
    | None => Some "day_of_week is required"
    | Some z =>
        if bool_decide (1 <= z <= 7) then None
        else Some "day_of_week must be an integer between 1 and 7"
    end.
Proof.
  unfold errors_of.
  destruct d as [z|].
  - rewrite DOW_NAME_MAP_lookup.
    case_bool_decide; destruct a; by simplify_map_eq.
  - destruct a; by simplify_map_eq.
Qed.

Lemma errors_of_other a d key :
  key <> "airport_id" -> key <> "day_of_week" -> errors_of a d !! key = None.
Proof.
  intros Ha Hd. unfold errors_of.
  destruct a as [x|], d as [z|]; try destruct (DOW_NAME_MAP !! z);
    by simplify_map_eq.
Qed.

Lemma errors_of_empty a d :
  errors_of a d = ∅ <->
  (exists x z, a = Some x /\ d = Some z /\ 1 <= z <= 7).
Proof.
  split.
  - intros He.
    pose proof (errors_of_airport_id a d) as Ha.
    pose proof (errors_of_day_of_week a d) as Hd.
    rewrite He, lookup_empty in Ha, Hd.
    destruct a as [x|]; [|done]. destruct d as [z|]; [|done].
    case_bool_decide; [|done]. eauto.
  - intros (x & z & -> & -> & Hz). unfold errors_of.
    rewrite DOW_NAME_MAP_lookup. by rewrite bool_decide_eq_true_2.
Qed.

(** ** Facts about the handler *)

Section HandlerFacts.

Context {F : Type} `{FloatOps F}.
Variable n : nat.
Variable model : Classifier F.

Lemma payload_of_object d :
  py_or (get_json_silent (Some (PyDict d))) empty_object = PyDict d.
Proof.
  unfold py_or, get_json_silent, empty_object. simpl.
  destruct (map_to_list d) eqn:Hl; [|done].
  apply map_to_list_empty_iff in Hl. by subst.
Qed.

Lemma payload_of_falsy request_json :
  truthy (get_json_silent request_json) = false ->
  py_or (get_json_silent request_json) empty_object = empty_object.
Proof. unfold py_or. by intros ->. Qed.

Lemma payload_of_truthy request_json :
  truthy (get_json_silent request_json) = true ->
  py_or (get_json_silent request_json) empty_object =
    get_json_silent request_json.
Proof. unfold py_or. by intros ->. Qed.

Lemma prediction_validate_raises request_json t e :
  validate n (py_or (get_json_silent request_json) empty_object) = (t, inl e) ->
  prediction n model request_json = ([], inl e).
Proof.
  intros Hv. pose proof (validate_trace n
    (py_or (get_json_silent request_json) empty_object)) as Ht.
  rewrite Hv in Ht. simpl in Ht. subst t.
  unfold prediction, bind. fold empty_object. by rewrite Hv.
Qed.

Lemma prediction_rejects request_json t v :
  validate n (py_or (get_json_silent request_json) empty_object) = (t, inr v) ->
  errors v <> ∅ ->
  prediction n model request_json = ([], inr (Errors (errors v), 400)).
Proof.
  intros Hv He. pose proof (validate_trace n
    (py_or (get_json_silent request_json) empty_object)) as Ht.
  rewrite Hv in Ht. simpl in Ht. subst t.
  unfold prediction, bind. fold empty_object. rewrite Hv.
  by rewrite bool_decide_eq_true_2.
Qed.

Lemma prediction_accepts request_json t v :
  validate n (py_or (get_json_silent request_json) empty_object) = (t, inr v) ->
  errors v = ∅ ->
  prediction n model request_json = predict model v.
Proof.
  intros Hv He. pose proof (validate_trace n
    (py_or (get_json_silent request_json) empty_object)) as Ht.
  rewrite Hv in Ht. simpl in Ht. subst t.
  unfold prediction, bind. fold empty_object. rewrite Hv.
  rewrite bool_decide_eq_false_2 by (by intros []).
  by destruct (predict model v).
Qed.

(** A response of [predict] is a prediction with status 200, never an
    error object. *)
Lemma predict_response v b status :
  outcome (predict model v) = inr (b, status) ->
  exists r, b = Prediction r /\ status = 200.
Proof.
  unfold_handler. simpl.
  destruct (getitem DOW_NAME_MAP (day_of_week v)); simpl; [done|].
  destruct (predict_proba model _); simpl; [done|].
  destruct (subscript _ 0) as [|proba]; simpl; [done|].
  destruct (index _ _) as [e|i]; simpl.
  - destruct (bool_decide (e ∈ [ValueError])); simpl; [|done].
    destruct (subscript proba _); simpl; [done|]. intros [= <- <-]. eauto.
  - destruct (subscript proba i); simpl; [done|]. intros [= <- <-]. eauto.
Qed.

(** An error object in the response comes from the validation block. *)
Lemma prediction_errors_inv request_json errs status :
  outcome (prediction n model request_json) = inr (Errors errs, status) ->
  exists d v,
    py_or (get_json_silent request_json) empty_object = PyDict d /\
    validate n (PyDict d) = ([], inr v) /\
    errors v <> ∅ /\ errs = errors v /\ status = 400 /\
    trace (prediction n model request_json) = [].
Proof.
  intros Hout.
  destruct (validate n (py_or (get_json_silent request_json) empty_object))
    as [t [e|v]] eqn:Hv.
  - rewrite (prediction_validate_raises _ _ _ Hv) in Hout. done.
  - pose proof (validate_trace n
      (py_or (get_json_silent request_json) empty_object)) as Ht.
    rewrite Hv in Ht. simpl in Ht. subst t.
    destruct (decide (errors v = ∅)) as [He|He].
    + rewrite (prediction_accepts _ _ _ Hv He) in Hout.
      apply predict_response in Hout as (r & [=] & _).
    + rewrite (prediction_rejects _ _ _ Hv He) in Hout |- *.
      injection Hout as <- <-.
      destruct (py_or (get_json_silent request_json) empty_object)
        as [| | | | | |d] eqn:Hp; try done.
      by exists d, v.
Qed.

End HandlerFacts.

(** ** Validation of the request *)

(** C7.  Evaluation at the request body [{"origin_airport_id": 1e999}]:
    both required fields are missing, so the error set holds two entries
    when the optional field is converted; that conversion raises
    [OverflowError], which the handler does not catch, and the request ends
    with the exception instead of the 400 response. *)
Theorem validation_failure_raises_on_infinity
  {F : Type} `{FloatOps F} (n : nat) (model : Classifier F) :
  let d : gmap string pyobj := list_to_map [("origin_airport_id", infinity)] in
  refused (int n (raw_field d "airport_id" PyNone)) /\
  refused (int n (raw_field d "day_of_week" PyNone)) /\
  prediction n model (Some (PyDict d)) = ([], inl OverflowError).
Proof. repeat split; by left. Qed.

(** C5.  Evaluation at [{"airport_id": 1, "day_of_week": 1e999}]: the
    [day_of_week] value cannot be converted to an integer, yet no
    "day_of_week is required" message is produced; the conversion raises
    [OverflowError] through the handler. *)
Theorem day_of_week_infinity_raises
  {F : Type} `{FloatOps F} (n : nat) (model : Classifier F) :
  let d : gmap string pyobj :=
    list_to_map [("airport_id", PyInt 1); ("day_of_week", infinity)] in
  int n (raw_field d "day_of_week" PyNone) = inl OverflowError /\
  prediction n model (Some (PyDict d)) = ([], inl OverflowError).
Proof. by split. Qed.

(** C6.  Evaluation at
    [{"airport_id": 1, "day_of_week": 1, "origin_airport_id": 1e999}]: the
    supplied [origin_airport_id] cannot be converted to an integer, yet it
    is not replaced by 0; the conversion raises [OverflowError] through the
    handler. *)
Theorem origin_airport_id_infinity_raises
  {F : Type} `{FloatOps F} (n : nat) (model : Classifier F) :
  let d : gmap string pyobj :=
    list_to_map [("airport_id", PyInt 1); ("day_of_week", PyInt 1);
                 ("origin_airport_id", infinity)] in
  int n (raw_field d "origin_airport_id" (PyInt 0)) = inl OverflowError /\
  prediction n model (Some (PyDict d)) = ([], inl OverflowError).
Proof. by split. Qed.

(** C10.  Evaluation at the request body [[1]], a JSON array: it is not a
    JSON object, yet it is truthy, so it is not replaced by the empty
    object, and reading its [get] attribute raises [AttributeError]. *)
Theorem non_object_body_raises
  {F : Type} `{FloatOps F} (n : nat) (model : Classifier F) :
  prediction n model (Some (PyList [PyInt 1])) = ([], inl AttributeError) /\
  prediction n model (Some (PyList [PyInt 1])) <>
    prediction n model (Some empty_object).
Proof. by split. Qed.

(** ** Requests on which the validation block completes *)

(** Whenever the validation block completes with a non-empty error set, the
    handler answers 400 with exactly that mapping, and the classifier is
    never invoked: no frame of feature rows is submitted. *)
Theorem rejected_request_answered_400
  {F : Type} `{FloatOps F} (n : nat) (model : Classifier F)
  (request_json : option pyobj) (t : list (list features)) (v : validated) :
  validate n (py_or (get_json_silent request_json) empty_object) = (t, inr v) ->
  errors v <> ∅ ->
  outcome (prediction n model request_json) = inr (Errors (errors v), 400) /\
  trace (prediction n model request_json) = [].
Proof.
  intros Hv He. by rewrite (prediction_rejects n model _ _ _ Hv He).
Qed.

Lemma rejected_request_answered_400_witness :
  outcome (prediction (F := Q) 4300
             failing_model
             (Some (object_of [("airport_id", PyStr "abc");
                               ("day_of_week", PyInt 8)]))) =
    inr (Errors (<["airport_id" := "airport_id is required"]>
                 (<["day_of_week" :=
                      "day_of_week must be an integer between 1 and 7"]> ∅)),
         400) /\
  trace (prediction (F := Q) 4300
           failing_model
           (Some (object_of [("airport_id", PyStr "abc");
                             ("day_of_week", PyInt 8)]))) = [].
Proof.
  refine (rejected_request_answered_400 (F := Q) 4300 _ _ []
            {| errors := _; airport_id_ := None; day_of_week := Some 8;
               carrier := PyStr "UNKNOWN"; origin_airport_id := 0 |} _ _).
  - reflexivity.
  - simpl. apply insert_non_empty.
Defined.

(** A request without a JSON body, or whose JSON body is a falsy value
    ([null], [false], [0], [0.0], the empty string, the empty array), is
    handled exactly as the empty object. *)
Theorem falsy_body_handled_as_empty_object
  {F : Type} `{FloatOps F} (n : nat) (model : Classifier F)
  (request_json : option pyobj) :
  truthy (get_json_silent request_json) = false ->
  prediction n model request_json = prediction n model (Some empty_object).
Proof.
  intros Hf. unfold prediction. fold empty_object.
  by rewrite (payload_of_falsy _ Hf).
Qed.

Lemma falsy_body_handled_as_empty_object_witness :
  prediction (F := Q) 4300
    failing_model None =
  prediction (F := Q) 4300
    failing_model
    (Some empty_object).
Proof.
  apply (falsy_body_handled_as_empty_object (F := Q) 4300 _ None).
  reflexivity.
Defined.

(** Whenever the validation block completes, the [day_of_week] entry of the
    error set is determined by the conversion of the field alone: a refused
    conversion gives "day_of_week is required", an integer outside 1..7
    gives the range message, an integer in 1..7 gives no entry; and a
    request with a [day_of_week] entry submits no frame to the
    classifier. *)
Theorem day_of_week_error_messages
  {F : Type} `{FloatOps F} (n : nat) (model : Classifier F)
  (d : gmap string pyobj) (t : list (list features)) (v : validated) :
  validate n (PyDict d) = (t, inr v) ->
  (refused (int n (raw_field d "day_of_week" PyNone)) ->
     errors v !! "day_of_week" = Some "day_of_week is required") /\
  (forall z, int n (raw_field d "day_of_week" PyNone) = inr z ->
     errors v !! "day_of_week" =
       if bool_decide (1 <= z <= 7) then None
       else Some "day_of_week must be an integer between 1 and 7") /\
  (is_Some (errors v !! "day_of_week") ->
     trace (prediction n model (Some (PyDict d))) = []).
Proof.
  intros Hv.
  pose proof (validate_inv _ _ _ _ Hv) as (_ & _ & Hd & _ & _ & Herr).
  rewrite Herr, errors_of_day_of_week. repeat split.
  - intros Hr. destruct Hd as [(z & Hi & _)|[_ ->]]; [|done].
    destruct Hr as [Hr|Hr]; congruence.
  - intros z Hi. destruct Hd as [(z' & Hi' & ->)|[[Hr|Hr] _]]; try congruence.
    by assert (z' = z) as -> by congruence.
  - intros Hs.
    assert (errors v <> ∅) as He.
    { intros He. rewrite He in Herr.
      pose proof (errors_of_day_of_week (airport_id_ v) (day_of_week v)) as Hl.
      rewrite <- Herr, lookup_empty in Hl. rewrite <- Hl in Hs.
      by destruct Hs. }
    rewrite <- payload_of_object in Hv.
    by rewrite (prediction_rejects n model _ _ _ Hv He).
Qed.

Lemma day_of_week_error_messages_witness :
  exists v,
    validate 4300 (object_of [("airport_id", PyInt 1);
                              ("day_of_week", PyStr "abc")]) = ([], inr v) /\
    errors v !! "day_of_week" = Some "day_of_week is required".
Proof.
  eexists. split; [reflexivity|].
  eapply (day_of_week_error_messages (F := Q) 4300
            failing_model
            (list_to_map [("airport_id", PyInt 1);
                          ("day_of_week", PyStr "abc")]) []);
    [reflexivity|].
  by right.
Defined.

(** Whenever the validation block completes, [origin_airport_id] adds no
    entry to the error set; an omitted field gives 0, a refused conversion
    gives 0, and a successful conversion gives its integer. *)
Theorem origin_airport_id_defaults
  (n : nat) (d : gmap string pyobj) (t : list (list features))
  (v : validated) :
  validate n (PyDict d) = (t, inr v) ->
  errors v !! "origin_airport_id" = None /\
  (d !! "origin_airport_id" = None -> origin_airport_id v = 0) /\
  (refused (int n (raw_field d "origin_airport_id" (PyInt 0))) ->
     origin_airport_id v = 0) /\
  (forall z, int n (raw_field d "origin_airport_id" (PyInt 0)) = inr z ->
     origin_airport_id v = z).
Proof.
  intros Hv.
  pose proof (validate_inv _ _ _ _ Hv) as (_ & _ & _ & _ & Ho & Herr).
  rewrite Herr. repeat split.
  - by apply errors_of_other.
  - intros Hm. unfold raw_field in Ho. rewrite Hm in Ho. simpl in Ho.
    destruct Ho as [(z & [= <-] & ->)|[[Hr|Hr] _]]; done.
  - intros Hr. destruct Ho as [(z & Hi & _)|[_ ->]]; [|done].
    destruct Hr as [Hr|Hr]; congruence.
  - intros z Hi. destruct Ho as [(z' & Hi' & ->)|[[Hr|Hr] _]]; try congruence.
    unfold id. congruence.
Qed.

Lemma origin_airport_id_defaults_witness :
  exists v,
    validate 4300 (object_of [("airport_id", PyInt 1); ("day_of_week", PyInt 1);
                              ("origin_airport_id", PyStr "LAX")])
      = ([], inr v) /\
    errors v !! "origin_airport_id" = None /\ origin_airport_id v = 0.
Proof.
  eexists. split; [reflexivity|].
  pose proof (origin_airport_id_defaults 4300
                (list_to_map [("airport_id", PyInt 1); ("day_of_week", PyInt 1);
                              ("origin_airport_id", PyStr "LAX")]) [] _ eq_refl)
    as (He & _ & Hr & _).
  split; [exact He|]. apply Hr. by right.
Defined.

(** ** The [airport_id] field *)

(** C3, as stated, fails: the JSON number 3.5 (that is, 7 * 2^-1, which is
    no integer) is accepted as airport 3 and leaves no [airport_id]
    error. *)
Lemma airport_id_fraction_accepted :
  (forall z : Z, z * 2 <> 7) /\
  exists v,
    validate 4300 (object_of [("airport_id", PyFloat (FFinite 7 (-1)));
                              ("day_of_week", PyInt 1)]) = ([], inr v) /\
    airport_id_ v = Some 3 /\ errors v !! "airport_id" = None /\
    outcome (prediction 4300 sample_model
               (Some (object_of [("airport_id", PyFloat (FFinite 7 (-1)));
                                 ("day_of_week", PyInt 1)]))) =
      outcome (predict sample_model v).
Proof.
  split; [lia|]. eexists. split; [reflexivity|]. by repeat split.
Qed.

(** ** Facts about the prediction block *)

Lemma index_found {A} `{EqDecision A} (l : list A) (x : A) (i : nat) :
  index l x = inr i <->
  l !! i = Some x /\ (forall j, (j < i)%nat -> l !! j <> Some x).
Proof.
  revert i. induction l as [|y l IH]; intros i; simpl.
  - split; [done|]. by intros [? _].
  - destruct (decide (y = x)) as [->|Hne].
    + split.
      * intros [= <-]. split; [done|]. lia.
      * intros [Hi Hj]. destruct i as [|i]; [done|].
        by destruct (Hj 0%nat ltac:(lia)).
    + destruct (index l x) as [e|k] eqn:Hk.
      * split; [done|]. intros [Hi Hj].
        destruct i as [|i]; simpl in Hi; [congruence|].
        assert (inl e = inr i :> exn + nat) as Hc; [|done].
        apply IH. split; [done|]. intros j Hlt. apply (Hj (S j)). lia.
      * split.
        -- intros [= <-]. destruct (proj1 (IH k) eq_refl) as [Hk1 Hk2].
           split; [done|].
           intros [|j] Hlt; simpl; [congruence|]. apply Hk2. lia.
        -- intros [Hi Hj]. destruct i as [|i]; simpl in Hi; [congruence|].
           assert (inr k = inr i :> exn + nat) as [= ->]; [|done].
           apply IH. split; [done|].
           intros j Hlt. apply (Hj (S j)). lia.
Qed.

Lemma index_absent {A} `{EqDecision A} (l : list A) (x : A) :
  x ∉ l <-> index l x = inl ValueError.
Proof.
  induction l as [|y l IH]; simpl.
  - split; [done|]. intros _. apply not_elem_of_nil.
  - rewrite not_elem_of_cons.
    destruct (decide (y = x)) as [->|Hne].
    + split; [by intros [? _]|done].
    + destruct (index l x) as [e|k] eqn:Hk.
      * split.
        -- intros [_ Hx]. apply IH in Hx. congruence.
        -- intros [= ->]. split; [congruence|]. by apply IH.
      * split; [|done]. intros [_ Hx]. by apply IH in Hx.
Qed.

Section PredictFacts.

Context {F : Type} `{FloatOps F}.
Variable n : nat.
Variable model : Classifier F.

Lemma find_delayed_index_labelled (classes : list label) (proba : list F) i :
  index classes (LInt 1) = inr i ->
  find_delayed_index classes proba = ([], inr i).
Proof. unfold_handler. by intros ->. Qed.

Lemma find_delayed_index_fallback (classes : list label) (proba : list F) :
  LInt 1 ∉ classes ->
  find_delayed_index classes proba =
    ([], inr (if (1 <? length proba)%nat then 1%nat else 0%nat)).
Proof. unfold_handler. intros Hx. apply index_absent in Hx. by rewrite Hx. Qed.

Lemma predict_trace v :
  trace (predict model v) =
    match getitem DOW_NAME_MAP (day_of_week v) with
    | inr name => [frame_of v name]
    | inl _ => []
    end.
Proof.
  unfold_handler. simpl.
  destruct (getitem DOW_NAME_MAP (day_of_week v)) as [|name]; simpl; [done|].
  fold (frame_of v name).
  destruct (predict_proba model _); simpl; [done|].
  destruct (subscript _ 0) as [|proba]; simpl; [done|].
  destruct (index _ _) as [e|i]; simpl.
  - destruct (bool_decide (e ∈ [ValueError])); simpl; [|done].
    by destruct (subscript proba _).
  - by destruct (subscript proba i).
Qed.

Lemma predict_run v name rows proba i p :
  getitem DOW_NAME_MAP (day_of_week v) = inr name ->
  predict_proba model (frame_of v name) = inr rows ->
  rows !! 0%nat = Some proba ->
  find_delayed_index (classes_of model) proba = ([], inr i) ->
  proba !! i = Some p ->
  exists r,
    predict model v = ([frame_of v name], inr (Prediction r, 200)) /\
    input r =
      {| input_airport_id := airport_id_ v;
         input_day_of_week := day_of_week v;
         input_carrier := carrier v;
         input_origin_airport_id := origin_airport_id v |} /\
    prediction_label r = (if f_ge p f_half then "delayed" else "on_time") /\
    delay_probability r = p /\
    delay_probability_percent r = f_mul p (f_of_int 100) /\
    model_confidence_percent r =
      f_mul (max p (f_sub (f_of_int 1) p)) (f_of_int 100).
Proof.
  intros Hname Hrows Hrow Hidx Hp.
  unfold predict. rewrite Hname. unfold lift at 1. unfold bind at 1.
  fold (frame_of v name). fold (classes_of model).
  unfold emit, bind at 1. rewrite Hrows.
  unfold lift at 1, bind at 1.
  unfold subscript at 1. rewrite Hrow.
  unfold lift at 1, bind at 1.
  rewrite Hidx. unfold bind at 1.
  unfold subscript. rewrite Hp. unfold lift, bind, ret. simpl.
  eexists. split; [reflexivity|]. by repeat split.
Qed.

(** A request that reaches the classifier passed validation first. *)
Lemma prediction_trace_inv request_json frame :
  frame ∈ trace (prediction n model request_json) ->
  exists d v name,
    py_or (get_json_silent request_json) empty_object = PyDict d /\
    validate n (PyDict d) = ([], inr v) /\ errors v = ∅ /\
    getitem DOW_NAME_MAP (day_of_week v) = inr name /\
    frame = frame_of v name /\
    prediction n model request_json = predict model v.
Proof.
  intros Hin.
  destruct (validate n (py_or (get_json_silent request_json) empty_object))
    as [t [e|v]] eqn:Hv.
  - rewrite (prediction_validate_raises _ _ _ _ _ Hv) in Hin.
    by apply elem_of_nil in Hin.
  - pose proof (validate_trace n
      (py_or (get_json_silent request_json) empty_object)) as Ht.
    rewrite Hv in Ht. simpl in Ht. subst t.
    destruct (decide (errors v = ∅)) as [He|He].
    + rewrite (prediction_accepts _ _ _ _ _ Hv He) in Hin |- *.
      rewrite predict_trace in Hin.
      destruct (getitem DOW_NAME_MAP (day_of_week v)) as [|name] eqn:Hn;
        [by apply elem_of_nil in Hin|].
      apply list_elem_of_singleton in Hin.
      destruct (py_or (get_json_silent request_json) empty_object)
        as [| | | | | |d] eqn:Hp; try done.
      by exists d, v, name.
    + rewrite (prediction_rejects _ _ _ _ _ Hv He) in Hin.
      by apply elem_of_nil in Hin.
Qed.

End PredictFacts.

(** ** The [day_of_week] field *)

(** C4.  For every integer [z] in 1..7 and every request object whose
    [day_of_week] is [z]: an error response never has a [day_of_week]
    entry; every feature row submitted to the classifier carries the
    weekday name of [z] under the mapping 1 = Monday, ..., 7 = Sunday; and
    when [airport_id] converts to an integer (and [origin_airport_id] is
    not an infinite float) exactly one such row is built and submitted. *)
Theorem day_of_week_in_range_maps_to_name
  {F : Type} `{FloatOps F} (n : nat) (model : Classifier F)
  (d : gmap string pyobj) (z : Z) :
  1 <= z <= 7 ->
  d !! "day_of_week" = Some (PyInt z) ->
  let name :=
    match z with
    | 1 => "Monday" | 2 => "Tuesday" | 3 => "Wednesday" | 4 => "Thursday"
    | 5 => "Friday" | 6 => "Saturday" | _ => "Sunday"
    end in
  (forall errs status,
      outcome (prediction n model (Some (PyDict d))) = inr (Errors errs, status) ->
      errs !! "day_of_week" = None) /\
  (forall frame row,
      frame ∈ trace (prediction n model (Some (PyDict d))) ->
      row ∈ frame -> DayOfWeekName row = name) /\
  (forall a,
      int n (raw_field d "airport_id" PyNone) = inr a ->
      int n (raw_field d "origin_airport_id" (PyInt 0)) <> inl OverflowError ->
      exists row,
        trace (prediction n model (Some (PyDict d))) = [[row]] /\
        DayOfWeekName row = name /\ DestAirportID row = Some a).
Proof.
  intros Hz Hday name.
  assert (int n (raw_field d "day_of_week" PyNone) = inr z) as Hint.
  { unfold raw_field. by rewrite Hday. }
  assert (getitem DOW_NAME_MAP (Some z) = inr name) as Hname.
  { unfold getitem. rewrite DOW_NAME_MAP_lookup, bool_decide_eq_true_2 by done.
    f_equal. subst name.
    assert (z = 1 \/ z = 2 \/ z = 3 \/ z = 4 \/ z = 5 \/ z = 6 \/ z = 7)
      as Hc by lia.
    by destruct Hc as [->|[->|[->|[->|[->|[->| ->]]]]]]. }
  assert (forall t v, validate n (PyDict d) = (t, inr v) ->
                      day_of_week v = Some z) as Hv_day.
  { intros t v Hv. apply validate_inv in Hv as (_ & _ & Hd & _).
    rewrite Hint in Hd.
    destruct Hd as [(z' & [= <-] & ->)|[[Hr|Hr] _]]; done. }
  repeat split.
  - intros errs status Hout.
    apply prediction_errors_inv in Hout
      as (d' & v & Hp & Hv & _ & -> & _).
    rewrite payload_of_object in Hp. injection Hp as <-.
    pose proof (Hv_day _ _ Hv) as Hd.
    apply validate_inv in Hv as (_ & _ & _ & _ & _ & ->).
    rewrite errors_of_day_of_week, Hd. by rewrite bool_decide_eq_true_2.
  - intros frame row Hin Hrow.
    apply prediction_trace_inv in Hin
      as (d' & v & name' & Hp & Hv & _ & Hn & -> & _).
    rewrite payload_of_object in Hp. injection Hp as <-.
    rewrite (Hv_day _ _ Hv), Hname in Hn. injection Hn as <-.
    apply list_elem_of_singleton in Hrow. by subst row.
  - intros a Ha Ho.
    destruct (validate_complete n d) as [v Hv]; try congruence.
    pose proof (Hv_day _ _ Hv) as Hd.
    pose proof (validate_inv _ _ _ _ Hv) as (_ & Hga & _ & _ & _ & Herr).
    rewrite Ha in Hga.
    destruct Hga as [(a' & [= <-] & Hga)|[[Hr|Hr] _]]; try done.
    assert (errors v = ∅) as He.
    { rewrite Herr. apply errors_of_empty. exists a, z. by rewrite Hga, Hd. }
    rewrite <- payload_of_object in Hv.
    rewrite (prediction_accepts n model _ _ _ Hv He), predict_trace.
    rewrite Hd, Hname. eexists. split; [reflexivity|]. by split.
Qed.

Lemma day_of_week_in_range_maps_to_name_witness :
  exists row,
    trace (prediction 4300 sample_model
             (Some (object_of [("airport_id", PyInt 12892);
                               ("day_of_week", PyInt 7)]))) = [[row]] /\
    DayOfWeekName row = "Sunday" /\ DestAirportID row = Some 12892.
Proof.
  refine (proj2 (proj2 (day_of_week_in_range_maps_to_name 4300 sample_model
            (list_to_map [("airport_id", PyInt 12892);
                          ("day_of_week", PyInt 7)]) 7 _ _)) 12892 _ _).
  - lia.
  - reflexivity.
  - reflexivity.
  - discriminate.
Defined.

(** ** The delayed-class probability *)

(** For every classifier and every request that reaches it, with the
    label list read as the handler reads it ([classes_], or [[0, 1]] when
    the attribute is absent): when that list holds the label 1, first at
    position [i], and the returned distribution has an entry at position
    [i], that entry is the delay probability of the response; when the
    list holds no label 1, the delay probability is the second entry of a
    distribution with more than one entry and the only entry of a
    distribution with one entry, and in both fallback cases the request is
    answered with status 200. *)
Theorem delay_probability_column
  {F : Type} `{FloatOps F} (n : nat) (model : Classifier F)
  (request_json : option pyobj) (frame : list features)
  (rows : list (list F)) (proba : list F) :
  frame ∈ trace (prediction n model request_json) ->
  predict_proba model frame = inr rows ->
  rows !! 0%nat = Some proba ->
  (forall i p,
      classes_of model !! i = Some (LInt 1) ->
      (forall j, (j < i)%nat -> classes_of model !! j <> Some (LInt 1)) ->
      proba !! i = Some p ->
      exists r,
        outcome (prediction n model request_json) = inr (Prediction r, 200) /\
        delay_probability r = p) /\
  (LInt 1 ∉ classes_of model ->
   (forall p0 p1 rest,
       proba = p0 :: p1 :: rest ->
       exists r,
         outcome (prediction n model request_json) = inr (Prediction r, 200) /\
         delay_probability r = p1) /\
   (forall p0,
       proba = [p0] ->
       exists r,
         outcome (prediction n model request_json) = inr (Prediction r, 200) /\
         delay_probability r = p0)).
Proof.
  intros Hin Hrows Hrow.
  apply prediction_trace_inv in Hin
    as (d & v & name & _ & _ & _ & Hname & -> & ->).
  split; [|split].
  - intros i p Hi Hfirst Hp.
    assert (index (classes_of model) (LInt 1) = inr i) as Hidx
      by by apply index_found.
    destruct (predict_run model v name rows proba i p)
      as (r & -> & _ & _ & Hr & _); auto using find_delayed_index_labelled.
    by exists r.
  - intros p0 p1 rest ->.
    destruct (predict_run model v name rows (p0 :: p1 :: rest) 1%nat p1)
      as (r & -> & _ & _ & Hr & _); auto.
    { by rewrite find_delayed_index_fallback. }
    by exists r.
  - intros p0 ->.
    destruct (predict_run model v name rows [p0] 0%nat p0)
      as (r & -> & _ & _ & Hr & _); auto.
    { by rewrite find_delayed_index_fallback. }
    by exists r.
Qed.

Lemma delay_probability_column_witness :
  exists r,
    outcome (prediction 4300 sample_model
               (Some sample_request)) =
      inr (Prediction r, 200) /\
    delay_probability r = (3 # 10)%Q.
Proof.
  refine (proj1 (delay_probability_column 4300 sample_model
            (Some sample_request)
            [ {| Carrier := PyStr "DL"; OriginAirportID := 15304;
                 DestAirportID := Some 12892; DayOfWeekName := "Monday" |} ]
            [[(7 # 10)%Q; (3 # 10)%Q]] [(7 # 10)%Q; (3 # 10)%Q] _ _ _)
            1%nat (3 # 10)%Q _ _ _).
  - apply list_elem_of_singleton. reflexivity.
  - reflexivity.
  - reflexivity.
  - reflexivity.
  - intros [|j] Hj; [discriminate|lia].
  - reflexivity.
Defined.

(** ** Float arithmetic *)

Lemma Q_float_laws : FloatLaws (F := Q) Some (fun q => q).
Proof.
  split; simpl; try done.
  - intros z _. eauto using Qeq_refl.
  - eauto using Qeq_refl.
  - intros x y a b [= ->] [= ->] _. eauto using Qeq_refl.
  - intros x y a b [= ->] [= ->] _. eauto using Qeq_refl.
  - by intros x y a b [= ->] [= ->].
  - by intros x y a b [= ->] [= ->].
Qed.

Lemma finite_range_100 (q : Q) :
  (-100 <= q <= 100)%Q -> (Qabs q <= inject_Z (2 ^ 1023))%Q.
Proof.
  intros [Hl Hu]. apply Qabs_Qle_condition.
  assert (100 <= inject_Z (2 ^ 1023))%Q as Hb by (by vm_compute).
  assert (- inject_Z (2 ^ 1023) <= -100)%Q as Hb' by (by vm_compute).
  split; eapply Qle_trans; eauto.
Qed.

Ltac q_literals :=
  change (inject_Z 0) with 0%Q in *;
  change (inject_Z 1) with 1%Q in *;
  change (inject_Z 50) with 50%Q in *;
  change (inject_Z 100) with 100%Q in *.

Section FloatFacts.

Context {F : Type} `{FloatOps F}.
Variable value : F -> option Q.
Variable round : Q -> Q.
Hypothesis laws : FloatLaws value round.

Lemma round_proper a b : (a == b)%Q -> (round a == round b)%Q.
Proof.
  intros Hab. apply Qle_antisym; apply (round_monotone _ _ laws); lra.
Qed.

Lemma round_small (z : Z) :
  Z.abs z <= 100 -> (round (inject_Z z) == inject_Z z)%Q.
Proof. intros Hz. apply (round_int _ _ laws). lia. Qed.

(** [1 - p] for a probability [p]. *)
Lemma complement_value p q :
  value p = Some q -> (0 <= q <= 1)%Q ->
  exists s, value (f_sub (f_of_int 1) p) = Some s /\
            (s == round (1 - q))%Q /\ (0 <= s <= 1)%Q /\
            (q < 1 # 2 -> 1 # 2 <= s)%Q.
Proof.
  intros Hp [Hq0 Hq1].
  destruct (value_of_int _ _ laws 1) as (one & Hone & Eone); [lia|].
  destruct (value_sub _ _ laws _ _ _ _ Hone Hp) as (s & Hs & Es).
  { apply finite_range_100. rewrite Eone. q_literals. split; lra. }
  assert (s == round (1 - q))%Q as Es'.
  { rewrite Es. apply round_proper. rewrite Eone. reflexivity. }
  exists s. split; [done|]. split; [done|].
  pose proof (round_small 0 ltac:(lia)) as R0.
  pose proof (round_small 1 ltac:(lia)) as R1.
  pose proof (round_half _ _ laws) as Rh.
  q_literals.
  assert (round 0 <= round (1 - q))%Q as M0
    by (apply (round_monotone _ _ laws); lra).
  assert (round (1 - q) <= round 1)%Q as M1
    by (apply (round_monotone _ _ laws); lra).
  split; [split; lra|].
  intros Hlt.
  assert (round (1 # 2) <= round (1 - q))%Q as Mh
    by (apply (round_monotone _ _ laws); lra).
  lra.
Qed.

(** [x * 100] for [x] between 0 and 1. *)
Lemma percent_value x a :
  value x = Some a -> (0 <= a <= 1)%Q ->
  exists c, value (f_mul x (f_of_int 100)) = Some c /\
            (c == round (a * 100))%Q /\ (0 <= c <= 100)%Q /\
            (1 # 2 <= a -> 50 <= c)%Q.
Proof.
  intros Hx [Ha0 Ha1].
  destruct (value_of_int _ _ laws 100) as (h & Hh & Eh); [lia|].
  destruct (value_mul _ _ laws _ _ _ _ Hx Hh) as (c & Hc & Ec).
  { apply finite_range_100. rewrite Eh. q_literals. split; lra. }
  assert (c == round (a * 100))%Q as Ec'.
  { rewrite Ec. apply round_proper. rewrite Eh. reflexivity. }
  exists c. split; [done|]. split; [done|].
  pose proof (round_small 0 ltac:(lia)) as R0.
  pose proof (round_small 50 ltac:(lia)) as R50.
  pose proof (round_small 100 ltac:(lia)) as R100.
  q_literals.
  assert (round 0 <= round (a * 100))%Q as M0
    by (apply (round_monotone _ _ laws); lra).
  assert (round (a * 100) <= round 100)%Q as M100
    by (apply (round_monotone _ _ laws); lra).
  split; [split; lra|].
  intros Hhalf.
  assert (round 50 <= round (a * 100))%Q as M50
    by (apply (round_monotone _ _ laws); lra).
  lra.
Qed.

(** [max(p, 1 - p)] for a probability [p]. *)
Lemma confidence_value p q s :
  value p = Some q -> value (f_sub (f_of_int 1) p) = Some s ->
  (0 <= q <= 1)%Q -> (0 <= s <= 1)%Q -> (q < 1 # 2 -> 1 # 2 <= s)%Q ->
  exists m, value (max p (f_sub (f_of_int 1) p)) = Some m /\
            (m == Qmax q s)%Q /\ (1 # 2 <= m <= 1)%Q.
Proof.
  intros Hp Hs Hq Hs01 Hlow. unfold max.
  rewrite (value_gt _ _ laws _ _ _ _ Hs Hp).
  destruct (Qle_bool s q) eqn:Hle; simpl.
  - apply Qle_bool_iff in Hle. exists q. split; [done|]. split.
    + symmetry. by apply Q.max_l.
    + split; [|lra].
      destruct (Qlt_le_dec q (1 # 2)) as [Hlt|]; [|done].
      specialize (Hlow Hlt). lra.
  - assert (q < s)%Q as Hlt.
    { apply Qnot_le_lt. intros Hc. apply Qle_bool_iff in Hc. congruence. }
    exists s. split; [done|]. split.
    + symmetry. apply Q.max_r. lra.
    + split; [|lra].
      destruct (Qlt_le_dec q (1 # 2)) as [Hq2|Hq2]; [by apply Hlow|lra].
Qed.

End FloatFacts.

(** ** The prediction response *)

(** C1.  For every request that passed validation and reached the
    classifier, and every classifier whose delayed-class probability [p]
    denotes a rational [q] in [0,1]: the response is a prediction with
    status 200 whose [delay_probability] is [p] itself; whose label is
    "delayed" exactly when [q >= 0.5] and "on_time" exactly when
    [q < 0.5]; whose [delay_probability_percent] is [p * 100]; and whose
    [model_confidence_percent] is [max(p, 1 - p) * 100] and denotes a
    rational in [50,100]. *)
Theorem prediction_response_contract
  {F : Type} `{FloatOps F} (value : F -> option Q) (round : Q -> Q)
  (n : nat) (model : Classifier F) (request_json : option pyobj)
  (frame : list features) (rows : list (list F)) (proba : list F)
  (i : nat) (p : F) (q : Q) :
  FloatLaws value round ->
  frame ∈ trace (prediction n model request_json) ->
  predict_proba model frame = inr rows ->
  rows !! 0%nat = Some proba ->
  find_delayed_index (classes_of model) proba = ([], inr i) ->
  proba !! i = Some p ->
  value p = Some q ->
  (0 <= q <= 1)%Q ->
  exists r,
    outcome (prediction n model request_json) = inr (Prediction r, 200) /\
    delay_probability r = p /\
    (prediction_label r = "delayed" <-> (1 # 2 <= q)%Q) /\
    (prediction_label r = "on_time" <-> (q < 1 # 2)%Q) /\
    delay_probability_percent r = f_mul p (f_of_int 100) /\
    (exists c, value (delay_probability_percent r) = Some c /\
               (c == round (q * 100))%Q /\ (0 <= c <= 100)%Q) /\
    model_confidence_percent r =
      f_mul (max p (f_sub (f_of_int 1) p)) (f_of_int 100) /\
    (exists s m c,
        value (f_sub (f_of_int 1) p) = Some s /\ (s == round (1 - q))%Q /\
        value (max p (f_sub (f_of_int 1) p)) = Some m /\ (m == Qmax q s)%Q /\
        value (model_confidence_percent r) = Some c /\
        (c == round (m * 100))%Q /\ (50 <= c <= 100)%Q).
Proof.
  intros laws Hin Hrows Hrow Hidx Hp Hq Hq01.
  apply prediction_trace_inv in Hin
    as (d & v & name & _ & _ & _ & Hname & -> & ->).
  destruct (predict_run model v name rows proba i p)
    as (r & -> & _ & Hlabel & Hprob & Hpercent & Hconf); auto.
  exists r. split; [done|]. split; [done|].
  destruct (value_half _ _ laws) as (half & Hhalf & Ehalf).
  rewrite (value_ge _ _ laws _ _ _ _ Hq Hhalf) in Hlabel.
  destruct (complement_value value round laws p q Hq Hq01)
    as (s & Hs & Es & Hs01 & Hslow).
  destruct (confidence_value value round laws p q s Hq Hs Hq01 Hs01 Hslow)
    as (m & Hm & Em & Hm01).
  destruct (percent_value value round laws p q Hq Hq01)
    as (c & Hc & Ec & Hc01 & _).
  destruct (percent_value value round laws _ m Hm ltac:(lra))
    as (c' & Hc' & Ec' & Hc'01 & Hc'50).
  repeat split.
  - intros Hd. rewrite Hlabel in Hd.
    destruct (Qle_bool half q) eqn:Hle; [|done].
    apply Qle_bool_iff in Hle. lra.
  - intros Hge. rewrite Hlabel.
    assert (Qle_bool half q = true) as -> by (apply Qle_bool_iff; lra). done.
  - intros Hd. rewrite Hlabel in Hd.
    destruct (Qle_bool half q) eqn:Hle; [done|].
    apply Qnot_le_lt. intros Hc2.
    assert (Qle_bool half q = true) by (apply Qle_bool_iff; lra). congruence.
  - intros Hlt. rewrite Hlabel.
    destruct (Qle_bool half q) eqn:Hle; [|done].
    apply Qle_bool_iff in Hle. lra.
  - done.
  - rewrite Hpercent. by exists c.
  - done.
  - exists s, m, c'. rewrite Hconf. repeat split; try done; lra.
Qed.

Lemma prediction_response_contract_witness :
  exists r,
    outcome (prediction 4300 sample_model
               (Some sample_request)) =
      inr (Prediction r, 200) /\
    delay_probability r = (3 # 10)%Q /\
    (prediction_label r = "delayed" <-> (1 # 2 <= 3 # 10)%Q) /\
    (prediction_label r = "on_time" <-> (3 # 10 < 1 # 2)%Q) /\
    delay_probability_percent r = ((3 # 10) * 100)%Q /\
    (exists c, Some (delay_probability_percent r) = Some c /\
               (c == (3 # 10) * 100)%Q /\ (0 <= c <= 100)%Q) /\
    model_confidence_percent r =
      (max (3 # 10)%Q (1 - (3 # 10))%Q * 100)%Q /\
    (exists s m c,
        Some (1 - (3 # 10))%Q = Some s /\ (s == 1 - (3 # 10))%Q /\
        Some (max (3 # 10)%Q (1 - (3 # 10))%Q) = Some m /\
        (m == Qmax (3 # 10) s)%Q /\
        Some (model_confidence_percent r) = Some c /\
        (c == m * 100)%Q /\ (50 <= c <= 100)%Q).
Proof.
  refine (prediction_response_contract (F := Q) Some (fun q => q)
            4300 sample_model
            (Some sample_request)
            [ {| Carrier := PyStr "DL"; OriginAirportID := 15304;
                 DestAirportID := Some 12892; DayOfWeekName := "Monday" |} ]
            [[(7 # 10)%Q; (3 # 10)%Q]] [(7 # 10)%Q; (3 # 10)%Q]
            1%nat (3 # 10)%Q (3 # 10)%Q _ _ _ _ _ _ _ _).
  - exact Q_float_laws.
  - apply list_elem_of_singleton. reflexivity.
  - reflexivity.
  - reflexivity.
  - reflexivity.
  - reflexivity.
  - reflexivity.
  - split; discriminate.
Defined.

(** ** The airport listing *)

Lemma insert_by_name_perm row l :
  Permutation (row :: l) (insert_by_name row l).
Proof.
  induction l as [|x l IH]; simpl; [done|].
  destruct (String.leb _ _); [done|].
  rewrite <- IH. apply perm_swap.
Qed.

Lemma sort_by_name_perm df : Permutation df (sort_by_name df).
Proof.
  induction df as [|row df IH]; simpl; [done|].
  rewrite <- insert_by_name_perm. by constructor.
Qed.

Lemma insert_by_name_hd row x l :
  by_name code_point_le x row ->
  HdRel (by_name code_point_le) x l ->
  HdRel (by_name code_point_le) x (insert_by_name row l).
Proof.
  intros Hx Hl. destruct l as [|y l]; simpl; [by constructor|].
  destruct (String.leb _ _); constructor; [done|].
  by inversion Hl.
Qed.

Lemma insert_by_name_sorted row l :
  Sorted (by_name code_point_le) l ->
  Sorted (by_name code_point_le) (insert_by_name row l).
Proof.
  induction 1 as [|x l Hs IH Hhd]; simpl.
  - by repeat constructor.
  - destruct (String.leb (airport_name row) (airport_name x)) eqn:Hle.
    + constructor; [by constructor|]. by constructor.
    + constructor; [done|]. apply insert_by_name_hd; [|done].
      unfold by_name, code_point_le.
      destruct (String.leb_total (airport_name row) (airport_name x));
        congruence.
Qed.

Lemma sort_by_name_sorted df : Sorted (by_name code_point_le) (sort_by_name df).
Proof.
  induction df as [|row df IH]; simpl; [constructor|].
  by apply insert_by_name_sorted.
Qed.

(** C9.  For every airport table, whatever comparison of names its
    [sort_values] sorts by: the listing answers 200 with a sequence that is
    a rearrangement of all rows of the table (nothing dropped, nothing
    added), ascending by [airport_name] under that comparison, and a count
    equal to the length of that sequence (hence to the number of rows). *)
Theorem airports_listing_sorted
  {F : Type} (name_le : string -> string -> Prop)
  (sort_values : list airport -> list airport) :
  (forall df, Permutation df (sort_values df)) ->
  (forall df, Sorted (by_name name_le) (sort_values df)) ->
  forall df,
  exists records,
    airports (F := F) sort_values df = (Airports records (length records), 200) /\
    Permutation df records /\
    Sorted (by_name name_le) records /\
    length records = length df.
Proof.
  intros Hperm Hsorted df.
  assert (map (fun row => {| airport_id := airport_id row;
                             airport_name := airport_name row |})
            (sort_values df) = sort_values df) as Hmap.
  { induction (sort_values df) as [|[i s] l IH]; simpl; [done|]. by rewrite IH. }
  exists (sort_values df). unfold airports. rewrite Hmap.
  repeat split; try done.
  symmetry. by apply Permutation_length.
Qed.

Lemma airports_listing_sorted_witness :
  exists records,
    airports (F := Q) sort_by_name sample_airports =
      (Airports records (length records), 200) /\
    Permutation sample_airports records /\
    Sorted (by_name code_point_le) records /\
    length records = length sample_airports.
Proof.
  exact (airports_listing_sorted (F := Q) code_point_le sort_by_name
           sort_by_name_perm sort_by_name_sorted sample_airports).
Defined.

(** The sample table of three airports is listed ascending by name with
    count 3. *)
Example airports_sample :
  airports (F := Q) sort_by_name sample_airports =
    (Airports
       [ {| airport_id := 13930; airport_name := "Chicago O'Hare International" |};
         {| airport_id := 10397; airport_name := "Hartsfield-Jackson Atlanta" |};
         {| airport_id := 12892; airport_name := "Los Angeles International" |} ]
       3, 200).
Proof. reflexivity. Qed.

(** ** Further properties of the handler *)

(** On a JSON object the validation block raises only [OverflowError], and
    it does so exactly when one of the three converted fields is an
    infinite float. *)
Theorem validate_raises_iff_infinite (n : nat) (d : gmap string pyobj) :
  (forall t e, validate n (PyDict d) = (t, inl e) ->
               t = [] /\ e = OverflowError) /\
  ((exists t e, validate n (PyDict d) = (t, inl e)) <->
   is_infinite (raw_field d "airport_id" PyNone) \/
   is_infinite (raw_field d "day_of_week" PyNone) \/
   is_infinite (raw_field d "origin_airport_id" (PyInt 0))).
Proof.
  assert (forall t e, validate n (PyDict d) = (t, inl e) ->
            t = [] /\ e = OverflowError /\
            (int n (raw_field d "airport_id" PyNone) = inl OverflowError \/
             int n (raw_field d "day_of_week" PyNone) = inl OverflowError \/
             int n (raw_field d "origin_airport_id" (PyInt 0)) =
               inl OverflowError)) as Hraise.
  { intros t e. unfold_handler. simpl.
    fold (raw_field d "airport_id" PyNone).
    fold (raw_field d "day_of_week" PyNone).
    fold (raw_field d "origin_airport_id" (PyInt 0)).
    split_int Ha; simpl; try (intros [= <- <-]; by auto);
      (split_int Hd; simpl; try (intros [= <- <-]; by auto));
      (split_int Ho; simpl; try (intros [= <- <-]; by auto));
      discriminate. }
  split.
  - intros t e Hv. by destruct (Hraise _ _ Hv) as (-> & -> & _).
  - unfold is_infinite. rewrite <- !int_overflow_iff. split.
    + intros (t & e & Hv). by destruct (Hraise _ _ Hv) as (_ & _ & Hc).
    + intros Hinf.
      destruct (validate n (PyDict d)) as [t [e|v]] eqn:Hv; [by eauto|].
      apply validate_inv in Hv as (_ & Ha & Hd & _ & Ho & _).
      unfold guarded in *.
      destruct Hinf as [Hi|[Hi|Hi]];
        [ destruct Ha as [(? & ? & _)|[[?|?] _]]
        | destruct Hd as [(? & ? & _)|[[?|?] _]]
        | destruct Ho as [(? & ? & _)|[[?|?] _]] ]; congruence.
Qed.

(** A prediction echoes the validated inputs: the converted [airport_id]
    and [day_of_week], the [carrier] as received (or "UNKNOWN" when the
    field is absent) and the converted or defaulted [origin_airport_id]. *)
Theorem prediction_echoes_input
  {F : Type} `{FloatOps F} (n : nat) (model : Classifier F)
  (d : gmap string pyobj) (r : prediction_result F) (status : Z) :
  outcome (prediction n model (Some (PyDict d))) = inr (Prediction r, status) ->
  exists a z,
    int n (raw_field d "airport_id" PyNone) = inr a /\
    int n (raw_field d "day_of_week" PyNone) = inr z /\ 1 <= z <= 7 /\
    input_airport_id (input r) = Some a /\
    input_day_of_week (input r) = Some z /\
    input_carrier (input r) = raw_field d "carrier" (PyStr "UNKNOWN") /\
    guarded (int n (raw_field d "origin_airport_id" (PyInt 0))) id 0
      (input_origin_airport_id (input r)).
Proof.
  intros Hout.
  destruct (validate n (PyDict d)) as [t [e|v]] eqn:Hv.
  - rewrite <- payload_of_object in Hv.
    by rewrite (prediction_validate_raises n model _ _ _ Hv) in Hout.
  - destruct (decide (errors v = ∅)) as [He|He].
    + pose proof (validate_inv _ _ _ _ Hv)
        as (_ & Ha & Hd & Hc & Ho & Herr).
      rewrite Herr in He.
      apply errors_of_empty in He as (a & z & Hav & Hdv & Hz).
      rewrite <- payload_of_object in Hv.
      rewrite (prediction_accepts n model _ _ _ Hv) in Hout
        by (rewrite Herr; apply errors_of_empty; eauto).
      revert Hout. unfold_handler. simpl.
      destruct (getitem DOW_NAME_MAP (day_of_week v)); simpl; [done|].
      destruct (predict_proba model _); simpl; [done|].
      destruct (subscript _ 0) as [|proba]; simpl; [done|].
      assert (guarded (int n (raw_field d "airport_id" PyNone)) Some None
                (Some a)) as Ha' by by rewrite <- Hav.
      assert (guarded (int n (raw_field d "day_of_week" PyNone)) Some None
                (Some z)) as Hd' by by rewrite <- Hdv.
      assert (int n (raw_field d "airport_id" PyNone) = inr a) as Hia.
      { destruct Ha' as [(a' & Hi & [= ->])|[_ ?]]; done. }
      assert (int n (raw_field d "day_of_week" PyNone) = inr z) as Hiz.
      { destruct Hd' as [(z' & Hi & [= ->])|[_ ?]]; done. }
      destruct (index _ _) as [e|i]; simpl.
      * destruct (bool_decide (e ∈ [ValueError])); simpl; [|done].
        destruct (subscript proba _); simpl; [done|].
        intros [= <- <-]. simpl. exists a, z. by rewrite <- Hc.
      * destruct (subscript proba i); simpl; [done|].
        intros [= <- <-]. simpl. exists a, z. by rewrite <- Hc.
    + rewrite <- payload_of_object in Hv.
      by rewrite (prediction_rejects n model _ _ _ Hv He) in Hout.
Qed.

Lemma prediction_echoes_input_witness :
  exists r,
    outcome (prediction 4300 sample_model (Some sample_request)) =
      inr (Prediction r, 200) /\
    exists a z,
      int 4300 (PyInt 12892) = inr a /\ int 4300 (PyInt 1) = inr z /\
      1 <= z <= 7 /\
      input_airport_id (input r) = Some a /\
      input_day_of_week (input r) = Some z /\
      input_carrier (input r) = PyStr "DL" /\
      guarded (int 4300 (PyInt 15304)) id 0
        (input_origin_airport_id (input r)).
Proof.
  eexists. split; [reflexivity|].
  exact (prediction_echoes_input 4300 sample_model
           (list_to_map [("airport_id", PyInt 12892); ("day_of_week", PyInt 1);
                         ("carrier", PyStr "DL");
                         ("origin_airport_id", PyInt 15304)])
           _ 200 eq_refl).
Defined.

(** The end-to-end example in binary64 arithmetic: the classifier answers
    [[0.7, 0.3]] for the labels [[0, 1]], and the response is "on_time"
    with probability 0.3, 30.0 percent and confidence 70.0 percent,
    exactly. *)
Example end_to_end_binary64 :
  prediction 4300 sample_model_binary64 (Some sample_request) =
    ([ [ {| Carrier := PyStr "DL"; OriginAirportID := 15304;
            DestAirportID := Some 12892; DayOfWeekName := "Monday" |} ] ],
     inr (Prediction
            {| input :=
                 {| input_airport_id := Some 12892;
                    input_day_of_week := Some 1;
                    input_carrier := PyStr "DL";
                    input_origin_airport_id := 15304 |};
               prediction_label := "on_time";
               delay_probability := 0x1.3333333333333p-2%float;
               delay_probability_percent := 30%float;
               model_confidence_percent := 70%float |},
          200)).
Proof. reflexivity. Qed.

(** ** Decimal numerals *)

Lemma pretty_N_char_digit (x : N) :
  (x < 10)%N ->
  digit_value (pretty_N_char x) = Some (Z.of_N x) /\
  to_ascii_char (pretty_N_char x) = pretty_N_char x /\
  is_space (pretty_N_char x) = false /\
  pretty_N_char x <> "+"%char /\ pretty_N_char x <> "-"%char /\
  pretty_N_char x <> "_"%char.
Proof.
  intros Hx.
  assert (x = 0 \/ x = 1 \/ x = 2 \/ x = 3 \/ x = 4 \/ x = 5 \/ x = 6 \/
          x = 7 \/ x = 8 \/ x = 9)%N as Hc by lia.
  destruct Hc as [->|[->|[->|[->|[->|[->|[->|[->|[->| ->]]]]]]]]];
    by repeat split.
Qed.

Lemma transform_pretty_N_go (x : N) (s : string) :
  transform_decimal_and_space (pretty_N_go x s) =
    pretty_N_go x (transform_decimal_and_space s).
Proof.
  revert s. induction (N.lt_wf_0 x) as [x _ IH]. intros s.
  destruct (decide (x = 0)%N) as [->|Hx]; [done|].
  rewrite pretty_N_go_step by lia.
  rewrite IH by (apply N.div_lt; lia). simpl.
  destruct (pretty_N_char_digit (x mod 10)%N) as (_ & Ht & _);
    [by apply N.mod_lt|].
  rewrite Ht. symmetry. apply pretty_N_go_step. lia.
Qed.

Lemma pretty_N_go_head (x : N) (s : string) :
  (0 < x)%N ->
  exists y r, (y < 10)%N /\ pretty_N_go x s = String (pretty_N_char y) r.
Proof.
  revert s. induction (N.lt_wf_0 x) as [x _ IH]. intros s Hx.
  rewrite pretty_N_go_step by done.
  destruct (decide (x `div` 10 = 0)%N) as [->|Hd].
  - exists (x mod 10)%N, s. split; [by apply N.mod_lt|done].
  - apply IH; [apply N.div_lt|]. all: try lia. by apply N.neq_0_lt_0.
Qed.

Lemma scan_pretty_N_go (x : N) (s : string) (acc : Z) (nd : nat) :
  exists k : nat,
    scan_digits (pretty_N_go x s) false acc nd =
      scan_digits s false (acc * 10 ^ Z.of_nat k + Z.of_N x) (nd + k) /\
    String.length (pretty_N_go x s) = (k + String.length s)%nat /\
    ((0 < x)%N -> (0 < k)%nat).
Proof.
  revert s acc nd. induction (N.lt_wf_0 x) as [x _ IH]. intros s acc nd.
  destruct (decide (x = 0)%N) as [->|Hx].
  - exists 0%nat. rewrite pretty_N_go_0. repeat split; [|lia].
    f_equal; lia.
  - rewrite pretty_N_go_step by lia.
    destruct (IH (x `div` 10)%N ltac:(apply N.div_lt; lia)
                (String (pretty_N_char (x mod 10)) s) acc nd)
      as (k & Hscan & Hlen & _).
    exists (S k). rewrite Hscan, Hlen. simpl.
    destruct (pretty_N_char_digit (x mod 10)%N) as (Hdig & _);
      [by apply N.mod_lt|].
    rewrite Hdig.
    repeat split; [|lia|lia].
    f_equal; [|lia].
    rewrite Nat2Z.inj_succ, Z.pow_succ_r by lia.
    rewrite (N.div_mod x 10) at 3 by lia.
    rewrite N2Z.inj_add, N2Z.inj_mul. lia.
Qed.

Lemma int_of_str_pretty_N_go (n : nat) (x : N) (negative : bool) :
  (0 < x)%N ->
  (n = 0 \/ String.length (pretty_N_go x "") <= n)%nat ->
  read_sign (skip_spaces (transform_decimal_and_space (pretty_N_go x ""))) =
    (false, pretty_N_go x "") /\
  match scan_digits (pretty_N_go x "") false 0 0 with
  | Some (acc, ndigits, rest) =>
      if (ndigits =? 0)%nat then None
      else if ((0 <? n) && (n <? ndigits))%nat%bool then None
      else
        match skip_spaces rest with
        | EmptyString => Some (if negative then - acc else acc)
        | _ => None
        end
  | None => None
  end = Some (if negative then - Z.of_N x else Z.of_N x) /\
  starts_with_underscore (pretty_N_go x "") = false.
Proof.
  intros Hx Hn.
  destruct (pretty_N_go_head x "" Hx) as (y & r & Hy & Hhead).
  destruct (pretty_N_char_digit y Hy) as (_ & _ & Hsp & Hplus & Hminus & Hus).
  destruct (scan_pretty_N_go x "" 0 0) as (k & Hscan & Hlen & Hk).
  specialize (Hk Hx).
  rewrite transform_pretty_N_go. simpl transform_decimal_and_space.
  rewrite Hscan. rewrite Hlen in Hn. rewrite Hhead.
  simpl. rewrite Hsp. simpl.
  apply Ascii.eqb_neq in Hplus, Hminus, Hus. rewrite Hplus, Hminus, Hus.
  repeat split.
  destruct k as [|k]; [lia|]. simpl.
  replace ((0 <? n)%nat && (n <? S k)%nat) with false.
  - by destruct negative.
  - symmetry. apply andb_false_iff.
    destruct Hn as [->|Hn]; [by left|right]. apply Nat.ltb_ge. lia.
Qed.

Lemma int_of_str_pretty (n : nat) (z : Z) :
  (n = 0 \/ String.length (pretty z) <= n)%nat ->
  int_of_str n (pretty z) = Some z.
Proof.
  intros Hn. unfold pretty, pretty_Z in *.
  destruct z as [|p|p]; unfold pretty, pretty_positive, pretty, pretty_N in *.
  - unfold int_of_str. simpl. by destruct n as [|[|n]].
  - destruct (decide (N.pos p = 0%N)) as [|_]; [done|].
    destruct (int_of_str_pretty_N_go n (N.pos p) false ltac:(lia) Hn)
      as (Hsign & Hscan & Hus).
    unfold int_of_str. cbv zeta. by rewrite Hsign, Hus, Hscan.
  - destruct (decide (N.pos p = 0%N)) as [|_]; [done|].
    assert (n = 0 \/ String.length (pretty_N_go (N.pos p) "") <= n)%nat
      as Hn'.
    { destruct Hn as [?|Hn]; [by left|right].
      change ("-" +:+ pretty_N_go (N.pos p) "")
        with (String "-" (pretty_N_go (N.pos p) "")) in Hn.
      simpl in Hn. lia. }
    destruct (int_of_str_pretty_N_go n (N.pos p) true ltac:(lia) Hn')
      as (Hsign & Hscan & Hus).
    change ("-" +:+ pretty_N_go (N.pos p) "")
      with (String "-" (pretty_N_go (N.pos p) "")).
    unfold int_of_str. cbv zeta.
    simpl transform_decimal_and_space. rewrite transform_pretty_N_go.
    simpl. by rewrite Hus, Hscan.
Qed.

(** [int()] reads the decimal rendering of every integer back as that
    integer, provided its length is within the cap on digits. *)
Theorem int_of_decimal_string (n : nat) (z : Z) :
  (n = 0 \/ String.length (pretty z) <= n)%nat ->
  int n (PyStr (pretty z)) = inr z.
Proof.
  intros Hn. cbn [int]. by rewrite int_of_str_pretty.
Qed.

Lemma int_of_decimal_string_witness :
  int 4300 (PyStr "-12892") = inr (-12892).
Proof.
  apply (int_of_decimal_string 4300 (-12892)). right. vm_compute. lia.
Defined.

(** A request whose [airport_id] is the decimal rendering of an integer is
    accepted with that integer whenever validation completes. *)
Theorem airport_id_decimal_string_accepted
  (n : nat) (d : gmap string pyobj) (z : Z) (t : list (list features))
  (v : validated) :
  (n = 0 \/ String.length (pretty z) <= n)%nat ->
  d !! "airport_id" = Some (PyStr (pretty z)) ->
  validate n (PyDict d) = (t, inr v) ->
  airport_id_accepted v z.
Proof.
  intros Hn Hd Hv.
  apply validate_inv in Hv as (_ & Ha & _ & _ & _ & Herr).
  unfold raw_field in Ha. rewrite Hd in Ha. simpl from_option in Ha.
  cbn [int] in Ha. rewrite (int_of_str_pretty n z Hn) in Ha.
  unfold airport_id_accepted. rewrite Herr, errors_of_airport_id.
  destruct Ha as [(z' & [= <-] & ->)|[[Hr|Hr] _]]; done.
Qed.

Lemma airport_id_decimal_string_accepted_witness :
  exists v,
    validate 4300 (object_of [("airport_id", PyStr "12892");
                              ("day_of_week", PyInt 1)]) = ([], inr v) /\
    airport_id_accepted v 12892.
Proof.
  eexists. split; [reflexivity|].
  eapply (airport_id_decimal_string_accepted 4300
            (list_to_map [("airport_id", PyStr "12892");
                          ("day_of_week", PyInt 1)]) 12892 []).
  - right. vm_compute. lia.
  - reflexivity.
  - reflexivity.
Defined.

(** ** When a request reaches the classifier *)

Section ReachFacts.

Context {F : Type} `{FloatOps F}.
Variable n : nat.
Variable model : Classifier F.

Lemma guarded_some r (a : Z) :
  guarded r Some None (Some a) -> r = inr a.
Proof. intros [(z & -> & [= ->])|[_ ?]]; done. Qed.

Lemma weekday_of_getitem (z : Z) name :
  getitem DOW_NAME_MAP (Some z) = inr name ->
  1 <= z <= 7 /\ name = nth (Z.to_nat (z - 1)) weekday_names "".
Proof.
  unfold getitem. rewrite DOW_NAME_MAP_lookup.
  case_bool_decide; [|done]. by intros [= <-].
Qed.

Lemma predict_model_raises v name e :
  getitem DOW_NAME_MAP (day_of_week v) = inr name ->
  predict_proba model (frame_of v name) = inl e ->
  predict model v = ([frame_of v name], inl e).
Proof.
  intros Hname Hraise. unfold predict. rewrite Hname.
  unfold lift at 1. unfold bind at 1. fold (frame_of v name).
  unfold emit, bind at 1. by rewrite Hraise.
Qed.

Lemma predict_no_row v name :
  getitem DOW_NAME_MAP (day_of_week v) = inr name ->
  predict_proba model (frame_of v name) = inr [] ->
  predict model v = ([frame_of v name], inl IndexError).
Proof.
  intros Hname Hrows. unfold predict. rewrite Hname.
  unfold lift at 1. unfold bind at 1. fold (frame_of v name).
  unfold emit, bind at 1. by rewrite Hrows.
Qed.

Lemma predict_no_column v name rows proba i :
  getitem DOW_NAME_MAP (day_of_week v) = inr name ->
  predict_proba model (frame_of v name) = inr rows ->
  rows !! 0%nat = Some proba ->
  find_delayed_index (classes_of model) proba = ([], inr i) ->
  proba !! i = None ->
  predict model v = ([frame_of v name], inl IndexError).
Proof.
  intros Hname Hrows Hrow Hidx Hp.
  unfold predict. rewrite Hname. unfold lift at 1. unfold bind at 1.
  fold (frame_of v name). fold (classes_of model).
  unfold emit, bind at 1. rewrite Hrows.
  unfold lift at 1, bind at 1.
  unfold subscript at 1. rewrite Hrow.
  unfold lift at 1, bind at 1.
  rewrite Hidx. unfold bind at 1.
  unfold subscript. by rewrite Hp.
Qed.

Lemma validated_accepts d a z :
  int n (raw_field d "airport_id" PyNone) = inr a ->
  int n (raw_field d "day_of_week" PyNone) = inr z ->
  1 <= z <= 7 ->
  int n (raw_field d "origin_airport_id" (PyInt 0)) <> inl OverflowError ->
  exists v,
    validate n (PyDict d) = ([], inr v) /\ errors v = ∅ /\
    airport_id_ v = Some a /\ day_of_week v = Some z /\
    prediction n model (Some (PyDict d)) = predict model v.
Proof.
  intros Ha Hd Hz Ho.
  destruct (validate_complete n d) as [v Hv]; try congruence.
  pose proof (validate_inv _ _ _ _ Hv) as (_ & Hga & Hgd & _ & _ & Herr).
  rewrite Ha in Hga. rewrite Hd in Hgd.
  destruct Hga as [(a' & [= <-] & Hga)|[[Hr|Hr] _]]; try done.
  destruct Hgd as [(z' & [= <-] & Hgd)|[[Hr|Hr] _]]; try done.
  assert (errors v = ∅) as He.
  { rewrite Herr. apply errors_of_empty. exists a, z. by rewrite Hga, Hgd. }
  exists v. repeat split; try done.
  rewrite <- payload_of_object in Hv.
  by rewrite (prediction_accepts n model _ _ _ Hv He).
Qed.

End ReachFacts.

(** A request object reaches the classifier exactly when [airport_id]
    converts to an integer, [day_of_week] converts to an integer in 1..7
    and [origin_airport_id] is not an infinite float; the frame submitted
    then holds the single row built from the carrier as received (or
    "UNKNOWN"), the converted or defaulted origin, the converted airport
    and the weekday name of the converted day. *)
Theorem classifier_reached_iff
  {F : Type} `{FloatOps F} (n : nat) (model : Classifier F)
  (d : gmap string pyobj) :
  ((exists frame, frame ∈ trace (prediction n model (Some (PyDict d)))) <->
   (exists a z,
       int n (raw_field d "airport_id" PyNone) = inr a /\
       int n (raw_field d "day_of_week" PyNone) = inr z /\ 1 <= z <= 7 /\
       int n (raw_field d "origin_airport_id" (PyInt 0)) <>
         inl OverflowError)) /\
  (forall frame,
      frame ∈ trace (prediction n model (Some (PyDict d))) ->
      exists a z o,
        int n (raw_field d "airport_id" PyNone) = inr a /\
        int n (raw_field d "day_of_week" PyNone) = inr z /\ 1 <= z <= 7 /\
        guarded (int n (raw_field d "origin_airport_id" (PyInt 0))) id 0 o /\
        frame =
          [ {| Carrier := raw_field d "carrier" (PyStr "UNKNOWN");
               OriginAirportID := o;
               DestAirportID := Some a;
               DayOfWeekName := nth (Z.to_nat (z - 1)) weekday_names "" |} ]).
Proof.
  assert (forall frame,
      frame ∈ trace (prediction n model (Some (PyDict d))) ->
      exists a z o,
        int n (raw_field d "airport_id" PyNone) = inr a /\
        int n (raw_field d "day_of_week" PyNone) = inr z /\ 1 <= z <= 7 /\
        guarded (int n (raw_field d "origin_airport_id" (PyInt 0))) id 0 o /\
        frame =
          [ {| Carrier := raw_field d "carrier" (PyStr "UNKNOWN");
               OriginAirportID := o;
               DestAirportID := Some a;
               DayOfWeekName := nth (Z.to_nat (z - 1)) weekday_names "" |} ])
    as Hframe.
  { intros frame Hin.
    apply prediction_trace_inv in Hin
      as (d' & v & name & Hp & Hv & He & Hname & -> & _).
    rewrite payload_of_object in Hp. injection Hp as <-.
    apply validate_inv in Hv as (_ & Ha & Hd & Hc & Ho & Herr).
    rewrite Herr in He. apply errors_of_empty in He as (a & z & Hav & Hdv & Hz).
    rewrite Hav in Ha. rewrite Hdv in Hd, Hname.
    apply guarded_some in Ha, Hd.
    apply weekday_of_getitem in Hname as [_ ->].
    exists a, z, (origin_airport_id v).
    repeat split; try done; try lia.
    unfold frame_of. by rewrite Hc, Hav. }
  split; [|exact Hframe]. split.
  - intros [frame Hin].
    destruct (Hframe frame Hin) as (a & z & o & Ha & Hd & Hz & Ho & _).
    exists a, z. repeat split; try done; try lia.
    destruct Ho as [(? & Hi & _)|[[Hi|Hi] _]]; congruence.
  - intros (a & z & Ha & Hd & Hz & Ho).
    destruct (validated_accepts n model d a z Ha Hd Hz Ho)
      as (v & _ & _ & _ & Hdv & ->).
    rewrite predict_trace, Hdv.
    unfold getitem. rewrite DOW_NAME_MAP_lookup, bool_decide_eq_true_2 by done.
    eexists. by apply list_elem_of_singleton.
Qed.

(** No request makes the handler call the classifier more than once, and
    every call submits exactly one feature row. *)
Theorem classifier_called_at_most_once
  {F : Type} `{FloatOps F} (n : nat) (model : Classifier F)
  (request_json : option pyobj) :
  trace (prediction n model request_json) = [] \/
  exists row, trace (prediction n model request_json) = [[row]].
Proof.
  destruct (validate n (py_or (get_json_silent request_json) empty_object))
    as [t [e|v]] eqn:Hv.
  - left. by rewrite (prediction_validate_raises n model _ _ _ Hv).
  - destruct (decide (errors v = ∅)) as [He|He].
    + rewrite (prediction_accepts n model _ _ _ Hv He), predict_trace.
      destruct (getitem DOW_NAME_MAP (day_of_week v)); [by left|].
      right. by eexists.
    + left. by rewrite (prediction_rejects n model _ _ _ Hv He).
Qed.

(** An exception raised by the classifier is not caught: the request ends
    with that very exception, after the one call. *)
Theorem classifier_exception_propagates
  {F : Type} `{FloatOps F} (n : nat) (model : Classifier F)
  (request_json : option pyobj) (frame : list features) (e : exn) :
  frame ∈ trace (prediction n model request_json) ->
  predict_proba model frame = inl e ->
  prediction n model request_json = ([frame], inl e).
Proof.
  intros Hin Hraise.
  apply prediction_trace_inv in Hin
    as (d & v & name & _ & _ & _ & Hname & -> & ->).
  by apply predict_model_raises.
Qed.

Lemma classifier_exception_propagates_witness :
  prediction 4300 failing_model (Some sample_request) =
    ([ [ {| Carrier := PyStr "DL"; OriginAirportID := 15304;
            DestAirportID := Some 12892; DayOfWeekName := "Monday" |} ] ],
     inl ModelError).
Proof.
  apply (classifier_exception_propagates 4300 failing_model
           (Some sample_request)).
  - apply list_elem_of_singleton. reflexivity.
  - reflexivity.
Defined.

Lemma index_raises {A} `{EqDecision A} (l : list A) (x : A) e :
  index l x = inl e -> e = ValueError.
Proof.
  induction l as [|y l IH]; simpl; [by intros [= <-]|].
  destruct (decide (y = x)); [done|].
  destruct (index l x); [|done]. intros [= <-]. by apply IH.
Qed.

(** Selecting the column never raises. *)
Lemma find_delayed_index_total {F : Type} (classes : list label)
  (proba : list F) :
  exists i, find_delayed_index classes proba = ([], inr i).
Proof.
  unfold_handler. destruct (index classes (LInt 1)) as [e|i] eqn:Hi.
  - apply index_raises in Hi as ->. simpl. by eexists.
  - by eexists.
Qed.

(** ** Distributions the handler cannot index *)

(** For a request that reached the classifier: an answer with no row, or a
    first row without the selected column, ends the request with
    [IndexError].  That covers an empty distribution (with or without a
    class labelled 1) and, for a classifier that has no [classes_]
    attribute, every distribution with a single entry: the default labels
    [[0, 1]] select position 1, so the positional fallback is never
    consulted; with two or more entries that classifier's second entry is
    the delay probability. *)
Theorem distribution_index_errors
  {F : Type} `{FloatOps F} (n : nat) (model : Classifier F)
  (request_json : option pyobj) (frame : list features)
  (rows : list (list F)) :
  frame ∈ trace (prediction n model request_json) ->
  predict_proba model frame = inr rows ->
  (rows = [] ->
     prediction n model request_json = ([frame], inl IndexError)) /\
  (rows !! 0%nat = Some [] ->
     prediction n model request_json = ([frame], inl IndexError)) /\
  (classes_ model = None ->
     forall p0, rows !! 0%nat = Some [p0] ->
     prediction n model request_json = ([frame], inl IndexError)) /\
  (classes_ model = None ->
     forall p0 p1 rest, rows !! 0%nat = Some (p0 :: p1 :: rest) ->
     exists r,
       prediction n model request_json = ([frame], inr (Prediction r, 200)) /\
       delay_probability r = p1).
Proof.
  intros Hin Hrows.
  apply prediction_trace_inv in Hin
    as (d & v & name & _ & _ & _ & Hname & -> & ->).
  assert (classes_ model = None ->
          forall proba : list F,
            find_delayed_index (classes_of model) proba = ([], inr 1%nat))
    as Hdefault.
  { intros Hnone proba. apply find_delayed_index_labelled.
    unfold classes_of. by rewrite Hnone. }
  repeat split.
  - intros ->. by apply predict_no_row.
  - intros Hrow.
    destruct (find_delayed_index_total (classes_of model) (@nil F))
      as [i Hidx].
    by apply (predict_no_column model v name rows [] i).
  - intros Hnone p0 Hrow.
    by apply (predict_no_column model v name rows [p0] 1%nat);
      auto using Hdefault.
  - intros Hnone p0 p1 rest Hrow.
    destruct (predict_run model v name rows (p0 :: p1 :: rest) 1%nat p1)
      as (r & Hrun & _ & _ & Hp & _); auto using Hdefault.
    by exists r.
Qed.

Lemma distribution_index_errors_witness :
  prediction 4300
    {| predict_proba := fun _ => inr [[(3 # 10)%Q]]; classes_ := None |}
    (Some sample_request) =
    ([ [ {| Carrier := PyStr "DL"; OriginAirportID := 15304;
            DestAirportID := Some 12892; DayOfWeekName := "Monday" |} ] ],
     inl IndexError).
Proof.
  refine (proj1 (proj2 (proj2 (distribution_index_errors 4300
            {| predict_proba := fun _ => inr [[(3 # 10)%Q]];
               classes_ := None |}
            (Some sample_request) _ [[(3 # 10)%Q]] _ _))) _ (3 # 10)%Q _).
  - apply list_elem_of_singleton. reflexivity.
  - reflexivity.
  - reflexivity.
  - reflexivity.
Defined.

(** ** The shape of every response *)

(** Whatever the request and the classifier, a response of the handler is
    either status 400 with a non-empty error object, produced without
    calling the classifier, or status 200 with a prediction whose label is
    "delayed" or "on_time", produced after exactly one call. *)
Theorem response_is_400_errors_or_200_prediction
  {F : Type} `{FloatOps F} (n : nat) (model : Classifier F)
  (request_json : option pyobj) (b : body F) (status : Z) :
  outcome (prediction n model request_json) = inr (b, status) ->
  (status = 400 /\
   (exists errs, b = Errors errs /\ errs <> ∅) /\
   trace (prediction n model request_json) = []) \/
  (status = 200 /\
   (exists r, b = Prediction r /\
              (prediction_label r = "delayed" \/
               prediction_label r = "on_time")) /\
   exists row, trace (prediction n model request_json) = [[row]]).
Proof.
  intros Hout.
  destruct (validate n (py_or (get_json_silent request_json) empty_object))
    as [t [e|v]] eqn:Hv.
  - by rewrite (prediction_validate_raises n model _ _ _ Hv) in Hout.
  - destruct (decide (errors v = ∅)) as [He|He].
    + right. rewrite (prediction_accepts n model _ _ _ Hv He) in Hout |- *.
      rewrite predict_trace. revert Hout. unfold_handler. simpl.
      destruct (getitem DOW_NAME_MAP (day_of_week v)); simpl; [done|].
      destruct (predict_proba model _); simpl; [done|].
      destruct (subscript _ 0) as [|proba]; simpl; [done|].
      destruct (index _ _) as [e|i]; simpl.
      * destruct (bool_decide (e ∈ [ValueError])); simpl; [|done].
        destruct (subscript proba _) as [|p]; simpl; [done|].
        intros [= <- <-]. split; [done|]. split; [|by eexists].
        eexists. split; [done|]. simpl. destruct (f_ge p f_half); auto.
      * destruct (subscript proba i) as [|p]; simpl; [done|].
        intros [= <- <-]. split; [done|]. split; [|by eexists].
        eexists. split; [done|]. simpl. destruct (f_ge p f_half); auto.
    + left. rewrite (prediction_rejects n model _ _ _ Hv He) in Hout |- *.
      injection Hout as <- <-. split; [done|]. split; [|done]. by eexists.
Qed.

Lemma response_is_400_errors_or_200_prediction_witness :
  (400 = 400 /\
   (exists errs,
       Errors (F := Q)
         (<["airport_id" := "airport_id is required"]>
          (<["day_of_week" := "day_of_week is required"]> ∅)) =
         Errors errs /\ errs <> ∅) /\
   trace (prediction 4300 failing_model None) = []) \/
  (400 = 200 /\
   (exists r,
       Errors (F := Q)
         (<["airport_id" := "airport_id is required"]>
          (<["day_of_week" := "day_of_week is required"]> ∅)) =
         Prediction r /\
       (prediction_label r = "delayed" \/ prediction_label r = "on_time")) /\
   exists row, trace (prediction 4300 failing_model None) = [[row]]).
Proof.
  exact (response_is_400_errors_or_200_prediction 4300 failing_model None
           _ 400 eq_refl).
Defined.

(** ** What the handler reads of the request *)

(** Only the four fields count: two request objects that agree on
    [airport_id], [day_of_week], [carrier] and [origin_airport_id] get the
    same outcome and the same classifier call, whatever else they hold. *)
Theorem other_fields_ignored
  {F : Type} `{FloatOps F} (n : nat) (model : Classifier F)
  (d d' : gmap string pyobj) :
  same_fields d d' ->
  prediction n model (Some (PyDict d)) = prediction n model (Some (PyDict d')).
Proof.
  intros (Ha & Hd & Hc & Ho).
  unfold prediction. fold empty_object. rewrite !payload_of_object.
  assert (validate n (PyDict d) = validate n (PyDict d')) as ->; [|done].
  unfold validate, get. by rewrite Ha, Hd, Hc, Ho.
Qed.

Lemma other_fields_ignored_witness :
  prediction 4300 sample_model
    (Some (object_of [("airport_id", PyInt 12892); ("day_of_week", PyInt 1);
                      ("flight", PyStr "DL42"); ("debug", PyBool true)])) =
  prediction 4300 sample_model
    (Some (object_of [("airport_id", PyInt 12892); ("day_of_week", PyInt 1)])).
Proof.
  apply (other_fields_ignored 4300 sample_model
           (list_to_map [("airport_id", PyInt 12892); ("day_of_week", PyInt 1);
                         ("flight", PyStr "DL42"); ("debug", PyBool true)])
           (list_to_map [("airport_id", PyInt 12892);
                         ("day_of_week", PyInt 1)])).
  by repeat split.
Defined.

(** A JSON body that is truthy and not an object (a non-empty array or
    string, a non-zero number, [true]) always ends the request with
    [AttributeError], before any validation and without a classifier
    call. *)
Theorem truthy_non_object_body_raises
  {F : Type} `{FloatOps F} (n : nat) (model : Classifier F) (v : pyobj) :
  truthy v = true ->
  (forall d, v <> PyDict d) ->
  prediction n model (Some v) = ([], inl AttributeError).
Proof.
  intros Ht Hd.
  apply (prediction_validate_raises n model (Some v) []).
  rewrite payload_of_truthy by done. simpl.
  by rewrite validate_not_dict.
Qed.

Lemma truthy_non_object_body_raises_witness :
  prediction 4300 sample_model (Some (PyStr "12892")) =
    ([], inl AttributeError).
Proof.
  by apply (truthy_non_object_body_raises 4300 sample_model (PyStr "12892")).
Defined.

(** ** Confidence and the predicted class *)

Section ConfidenceFacts.

Context {F : Type} `{FloatOps F}.
Variable value : F -> option Q.
Variable round : Q -> Q.
Hypothesis laws : FloatLaws value round.

Lemma label_test p q :
  value p = Some q -> f_ge p f_half = Qle_bool (1 # 2) q.
Proof.
  intros Hp. destruct (value_half _ _ laws) as (half & Hhalf & Ehalf).
  rewrite (value_ge _ _ laws _ _ _ _ Hp Hhalf).
  destruct (Qle_bool half q) eqn:Hle; symmetry.
  - apply Qle_bool_iff. apply Qle_bool_iff in Hle. lra.
  - destruct (Qle_bool (1 # 2) q) eqn:Hle'; [|done].
    apply Qle_bool_iff in Hle'.
    assert (Qle_bool half q = true) by (apply Qle_bool_iff; lra). congruence.
Qed.

Lemma complement_any p q :
  value p = Some q ->
  (Qabs (1 - q) <= inject_Z (2 ^ 1023))%Q ->
  exists s, value (f_sub (f_of_int 1) p) = Some s /\
            (s == round (1 - q))%Q /\
            (1 # 2 <= q -> s <= 1 # 2)%Q /\ (q < 1 # 2 -> 1 # 2 <= s)%Q.
Proof.
  intros Hp Hrange.
  destruct (value_of_int _ _ laws 1) as (one & Hone & Eone); [lia|].
  q_literals.
  destruct (value_sub _ _ laws _ _ _ _ Hone Hp) as (s & Hs & Es).
  { assert (one - q == 1 - q)%Q as -> by lra. done. }
  assert (s == round (1 - q))%Q as Es'.
  { rewrite Es. apply (round_proper value round laws). lra. }
  exists s. split; [done|]. split; [done|].
  pose proof (round_half _ _ laws) as Rh.
  split; intros Hq.
  - assert (round (1 - q) <= round (1 # 2))%Q
      by (apply (round_monotone _ _ laws); lra). lra.
  - assert (round (1 # 2) <= round (1 - q))%Q
      by (apply (round_monotone _ _ laws); lra). lra.
Qed.

Lemma max_selects p q :
  value p = Some q ->
  (Qabs (1 - q) <= inject_Z (2 ^ 1023))%Q ->
  ((1 # 2 <= q)%Q -> max p (f_sub (f_of_int 1) p) = p) /\
  ((q < 1 # 2)%Q -> max p (f_sub (f_of_int 1) p) = f_sub (f_of_int 1) p).
Proof.
  intros Hp Hrange.
  destruct (complement_any p q Hp Hrange) as (s & Hs & _ & Hhi & Hlo).
  unfold max. rewrite (value_gt _ _ laws _ _ _ _ Hs Hp).
  split; intros Hq.
  - assert (Qle_bool s q = true) as ->; [|done].
    apply Qle_bool_iff. specialize (Hhi Hq). lra.
  - destruct (Qle_bool s q) eqn:Hle; [|done].
    apply Qle_bool_iff in Hle. specialize (Hlo Hq). lra.
Qed.

End ConfidenceFacts.

(** The confidence is the percentage of the predicted class, for every
    finite probability the classifier returns, also outside [0,1] (nothing
    is clamped): when the probability is at least 0.5 the label is
    "delayed" and [model_confidence_percent] is the same float as
    [delay_probability_percent]; below 0.5 the label is "on_time" and
    [model_confidence_percent] is [(1 - p) * 100]. *)
Theorem confidence_follows_label
  {F : Type} `{FloatOps F} (value : F -> option Q) (round : Q -> Q)
  (n : nat) (model : Classifier F) (request_json : option pyobj)
  (frame : list features) (rows : list (list F)) (proba : list F)
  (i : nat) (p : F) (q : Q) :
  FloatLaws value round ->
  frame ∈ trace (prediction n model request_json) ->
  predict_proba model frame = inr rows ->
  rows !! 0%nat = Some proba ->
  find_delayed_index (classes_of model) proba = ([], inr i) ->
  proba !! i = Some p ->
  value p = Some q ->
  (Qabs (1 - q) <= inject_Z (2 ^ 1023))%Q ->
  exists r,
    outcome (prediction n model request_json) = inr (Prediction r, 200) /\
    delay_probability r = p /\
    ((1 # 2 <= q)%Q ->
       prediction_label r = "delayed" /\
       model_confidence_percent r = delay_probability_percent r) /\
    ((q < 1 # 2)%Q ->
       prediction_label r = "on_time" /\
       model_confidence_percent r =
         f_mul (f_sub (f_of_int 1) p) (f_of_int 100)).
Proof.
  intros laws Hin Hrows Hrow Hidx Hp Hq Hrange.
  apply prediction_trace_inv in Hin
    as (d & v & name & _ & _ & _ & Hname & -> & ->).
  destruct (predict_run model v name rows proba i p)
    as (r & -> & _ & Hlabel & Hprob & Hpercent & Hconf); auto.
  exists r. split; [done|]. split; [done|].
  rewrite (label_test value round laws p q Hq) in Hlabel.
  destruct (max_selects value round laws p q Hq Hrange) as [Hhi Hlo].
  rewrite Hlabel, Hconf, Hpercent. split; intros Hcase.
  - rewrite (Hhi Hcase).
    by assert (Qle_bool (1 # 2) q = true) as -> by by apply Qle_bool_iff.
  - rewrite (Hlo Hcase).
    destruct (Qle_bool (1 # 2) q) eqn:Hle; [|done].
    apply Qle_bool_iff in Hle. lra.
Qed.

Lemma confidence_follows_label_witness :
  exists r,
    outcome (prediction 4300
               {| predict_proba := fun _ => inr [[(-1 # 2)%Q; (3 # 2)%Q]];
                  classes_ := Some [LInt 0; LInt 1] |}
               (Some sample_request)) = inr (Prediction r, 200) /\
    delay_probability r = (3 # 2)%Q /\
    ((1 # 2 <= 3 # 2)%Q ->
       prediction_label r = "delayed" /\
       model_confidence_percent r = delay_probability_percent r) /\
    ((3 # 2 < 1 # 2)%Q ->
       prediction_label r = "on_time" /\
       model_confidence_percent r = ((1 - (3 # 2)) * 100)%Q).
Proof.
  refine (confidence_follows_label (F := Q) Some (fun q => q) 4300
            {| predict_proba := fun _ => inr [[(-1 # 2)%Q; (3 # 2)%Q]];
               classes_ := Some [LInt 0; LInt 1] |}
            (Some sample_request)
            [ {| Carrier := PyStr "DL"; OriginAirportID := 15304;
                 DestAirportID := Some 12892; DayOfWeekName := "Monday" |} ]
            [[(-1 # 2)%Q; (3 # 2)%Q]] [(-1 # 2)%Q; (3 # 2)%Q]
            1%nat (3 # 2)%Q (3 # 2)%Q _ _ _ _ _ _ _ _).
  - exact Q_float_laws.
  - apply list_elem_of_singleton. reflexivity.
  - reflexivity.
  - reflexivity.
  - reflexivity.
  - reflexivity.
  - reflexivity.
  - by vm_compute.
Defined.

Lemma unit_range (q : Q) :
  (0 <= q <= 1)%Q ->
  (0 <= q <= 1)%Q /\ (Qabs (1 - q) <= inject_Z (2 ^ 1023))%Q.
Proof.
  intros Hq. split; [done|]. apply finite_range_100. split; lra.
Qed.

(** At the boundaries: a probability of exactly 0.5 is labelled "delayed"
    with confidence 50; probability 0 is "on_time" and probability 1 is
    "delayed", both with confidence 100. *)
Theorem confidence_at_boundaries
  {F : Type} `{FloatOps F} (value : F -> option Q) (round : Q -> Q)
  (n : nat) (model : Classifier F) (request_json : option pyobj)
  (frame : list features) (rows : list (list F)) (proba : list F)
  (i : nat) (p : F) (q : Q) :
  FloatLaws value round ->
  frame ∈ trace (prediction n model request_json) ->
  predict_proba model frame = inr rows ->
  rows !! 0%nat = Some proba ->
  find_delayed_index (classes_of model) proba = ([], inr i) ->
  proba !! i = Some p ->
  value p = Some q ->
  exists r,
    outcome (prediction n model request_json) = inr (Prediction r, 200) /\
    ((q == 1 # 2)%Q ->
       prediction_label r = "delayed" /\
       exists c, value (model_confidence_percent r) = Some c /\ (c == 50)%Q) /\
    ((q == 0)%Q ->
       prediction_label r = "on_time" /\
       exists c, value (model_confidence_percent r) = Some c /\ (c == 100)%Q) /\
    ((q == 1)%Q ->
       prediction_label r = "delayed" /\
       exists c, value (model_confidence_percent r) = Some c /\ (c == 100)%Q).
Proof.
  intros laws Hin Hrows Hrow Hidx Hp Hq.
  apply prediction_trace_inv in Hin
    as (d & v & name & _ & _ & _ & Hname & -> & ->).
  destruct (predict_run model v name rows proba i p)
    as (r & -> & _ & Hlabel & _ & _ & Hconf); auto.
  exists r. split; [done|].
  rewrite (label_test value round laws p q Hq) in Hlabel.
  rewrite Hlabel, Hconf. split; [|split]; intros Hcase; split.
  - assert (1 # 2 <= q)%Q as Hge by lra.
    apply Qle_bool_iff in Hge. by rewrite Hge.
  - destruct (unit_range q) as [H01 Hrange]; [lra|].
    destruct (max_selects value round laws p q Hq Hrange) as [Hhi _].
    rewrite Hhi by lra.
    destruct (percent_value value round laws p q Hq H01)
      as (c & Hc & Ec & _).
    exists c. split; [done|].
    pose proof (round_small value round laws 50 ltac:(lia)) as R50.
    q_literals.
    assert (round (q * 100) == round 50)%Q
      by (apply (round_proper value round laws); lra).
    lra.
  - destruct (Qle_bool (1 # 2) q) eqn:Hle; [|done].
    apply Qle_bool_iff in Hle. lra.
  - destruct (unit_range q) as [H01 Hrange]; [lra|].
    destruct (max_selects value round laws p q Hq Hrange) as [_ Hlo].
    rewrite Hlo by lra.
    destruct (complement_value value round laws p q Hq H01)
      as (s & Hs & Es & Hs01 & _).
    destruct (percent_value value round laws _ s Hs Hs01)
      as (c & Hc & Ec & _).
    exists c. split; [done|].
    pose proof (round_small value round laws 1 ltac:(lia)) as R1.
    pose proof (round_small value round laws 100 ltac:(lia)) as R100.
    q_literals.
    assert (round (1 - q) == round 1)%Q
      by (apply (round_proper value round laws); lra).
    assert (round (s * 100) == round 100)%Q
      by (apply (round_proper value round laws); lra).
    lra.
  - assert (1 # 2 <= q)%Q as Hge by lra.
    apply Qle_bool_iff in Hge. by rewrite Hge.
  - destruct (unit_range q) as [H01 Hrange]; [lra|].
    destruct (max_selects value round laws p q Hq Hrange) as [Hhi _].
    rewrite Hhi by lra.
    destruct (percent_value value round laws p q Hq H01)
      as (c & Hc & Ec & _).
    exists c. split; [done|].
    pose proof (round_small value round laws 100 ltac:(lia)) as R100.
    q_literals.
    assert (round (q * 100) == round 100)%Q
      by (apply (round_proper value round laws); lra).
    lra.
Qed.

Lemma confidence_at_boundaries_witness :
  exists r,
    outcome (prediction 4300
               {| predict_proba := fun _ => inr [[(1 # 2)%Q; (1 # 2)%Q]];
                  classes_ := Some [LInt 0; LInt 1] |}
               (Some sample_request)) = inr (Prediction r, 200) /\
    ((1 # 2 == 1 # 2)%Q ->
       prediction_label r = "delayed" /\
       exists c, Some (model_confidence_percent r) = Some c /\ (c == 50)%Q) /\
    ((1 # 2 == 0)%Q ->
       prediction_label r = "on_time" /\
       exists c, Some (model_confidence_percent r) = Some c /\ (c == 100)%Q) /\
    ((1 # 2 == 1)%Q ->
       prediction_label r = "delayed" /\
       exists c, Some (model_confidence_percent r) = Some c /\ (c == 100)%Q).
Proof.
  refine (confidence_at_boundaries (F := Q) Some (fun q => q) 4300
            {| predict_proba := fun _ => inr [[(1 # 2)%Q; (1 # 2)%Q]];
               classes_ := Some [LInt 0; LInt 1] |}
            (Some sample_request)
            [ {| Carrier := PyStr "DL"; OriginAirportID := 15304;
                 DestAirportID := Some 12892; DayOfWeekName := "Monday" |} ]
            [[(1 # 2)%Q; (1 # 2)%Q]] [(1 # 2)%Q; (1 # 2)%Q]
            1%nat (1 # 2)%Q (1 # 2)%Q _ _ _ _ _ _ _).
  - exact Q_float_laws.
  - apply list_elem_of_singleton. reflexivity.
  - reflexivity.
  - reflexivity.
  - reflexivity.
  - reflexivity.
  - reflexivity.
Defined.

(** ** Start-up *)

Import Startup.

(** The port of the entry point: 5000 when [PORT] is unset; the integer a
    [PORT] string spells, whatever its sign or size (no range is checked);
    and a [PORT] that [int()] cannot read fails with [ValueError], the only
    exception this expression raises. *)
Theorem port_of_environment (n : nat) (environ : gmap string string) :
  (environ !! "PORT" = None -> port n environ = inr 5000) /\
  (forall z,
      environ !! "PORT" = Some (pretty z) ->
      (n = 0 \/ String.length (pretty z) <= n)%nat ->
      port n environ = inr z) /\
  (forall e,
      port n environ = inl e ->
      e = ValueError /\
      exists s, environ !! "PORT" = Some s /\ int_of_str n s = None).
Proof.
  unfold port. repeat split.
  - by intros ->.
  - intros z -> Hn. cbn [from_option int]. by rewrite int_of_str_pretty.
  - destruct (environ !! "PORT") as [s|]; [|done]. revert H.
    cbn [from_option int]. destruct (int_of_str n s); [done|]. by intros [= <-].
  - destruct (environ !! "PORT") as [s|]; [|done]. revert H.
    cbn [from_option int]. destruct (int_of_str n s) eqn:Hs; [done|]. eauto.
Qed.

Lemma port_of_environment_witness :
  port 4300 (<["PORT" := "-8080"]> ∅) = inr (-8080).
Proof.
  refine (proj1 (proj2 (port_of_environment 4300 (<["PORT" := "-8080"]> ∅)))
            (-8080) _ _).
  - reflexivity.
  - right. vm_compute. lia.
Defined.

(** Start-up loads the model first and the airport table second, and
    fails closed: a missing model file raises [FileNotFoundError] before
    any loader is called; a model that fails to load, or a missing airport
    file, ends start-up before the table is read; and an application is
    created exactly when both files exist and both loaders return, its
    configuration then holding exactly what they returned. *)
Theorem create_app_outcome
  {F : Type} (BASE_DIR : path) (path_exists : path -> bool)
  (load : path -> exn + Classifier F)
  (read_csv : path -> exn + list airport) :
  (path_exists (MODEL_PATH BASE_DIR) = false ->
     create_app BASE_DIR path_exists load read_csv =
       ([], inl (FileNotFoundError (MODEL_PATH BASE_DIR)))) /\
  (forall e,
      path_exists (MODEL_PATH BASE_DIR) = true ->
      load (MODEL_PATH BASE_DIR) = inl e ->
      create_app BASE_DIR path_exists load read_csv =
        ([Load (MODEL_PATH BASE_DIR)], inl (LoaderError e))) /\
  (forall model,
      path_exists (MODEL_PATH BASE_DIR) = true ->
      load (MODEL_PATH BASE_DIR) = inr model ->
      path_exists (AIRPORTS_PATH BASE_DIR) = false ->
      create_app BASE_DIR path_exists load read_csv =
        ([Load (MODEL_PATH BASE_DIR)],
         inl (FileNotFoundError (AIRPORTS_PATH BASE_DIR)))) /\
  (forall t app,
      create_app BASE_DIR path_exists load read_csv = (t, inr app) <->
      path_exists (MODEL_PATH BASE_DIR) = true /\
      path_exists (AIRPORTS_PATH BASE_DIR) = true /\
      load (MODEL_PATH BASE_DIR) = inr (DELAY_MODEL app) /\
      read_csv (AIRPORTS_PATH BASE_DIR) = inr (AIRPORTS_DF app) /\
      t = [Load (MODEL_PATH BASE_DIR); ReadCsv (AIRPORTS_PATH BASE_DIR)]).
Proof.
  unfold create_app, load_model, load_airports. repeat split.
  - by intros ->.
  - by intros e -> ->.
  - by intros model -> -> ->.
  - revert H.
    destruct (path_exists (MODEL_PATH BASE_DIR)); simpl; [|done].
    by destruct (load _), (path_exists (AIRPORTS_PATH BASE_DIR)).
  - revert H.
    destruct (path_exists (MODEL_PATH BASE_DIR)); simpl; [|done].
    destruct (load _); simpl; [done|].
    by destruct (path_exists (AIRPORTS_PATH BASE_DIR)).
  - revert H.
    destruct (path_exists (MODEL_PATH BASE_DIR)); simpl; [|done].
    destruct (load _); simpl; [done|].
    destruct (path_exists (AIRPORTS_PATH BASE_DIR)); simpl; [|done].
    destruct (read_csv _); simpl; [done|]. by intros [= _ <-].
  - revert H.
    destruct (path_exists (MODEL_PATH BASE_DIR)); simpl; [|done].
    destruct (load _); simpl; [done|].
    destruct (path_exists (AIRPORTS_PATH BASE_DIR)); simpl; [|done].
    destruct (read_csv _); simpl; [done|]. by intros [= _ <-].
  - revert H.
    destruct (path_exists (MODEL_PATH BASE_DIR)); simpl; [|done].
    destruct (load _); simpl; [done|].
    destruct (path_exists (AIRPORTS_PATH BASE_DIR)); simpl; [|done].
    destruct (read_csv _); simpl; [done|]. by intros [= <- _].
  - intros (-> & -> & -> & -> & ->). simpl. by destruct app.
Qed.

Lemma create_app_outcome_witness :
  create_app ["srv"] sample_exists sample_load sample_read_csv =
    ([Load ["srv"; "artifacts"; "delay_probability_model.joblib"];
      ReadCsv ["srv"; "artifacts"; "airports_mapping.csv"]],
     inr {| DELAY_MODEL := sample_model; AIRPORTS_DF := sample_airports |}).
Proof.
  by apply (proj2 (proj2 (proj2 (create_app_outcome ["srv"] sample_exists
              sample_load sample_read_csv)))).
Defined.

(** ** The response hook *)

Lemma concat_replicate_S {A} (k : nat) (l : list A) :
  concat (replicate (S k) l) = concat (replicate k l) ++ l.
Proof.
  induction k as [|k IH]; simpl; [by rewrite app_nil_r|].
  simpl in IH. rewrite IH. rewrite app_assoc. by rewrite IH.
Qed.

(** The hook keeps the body, the status and every header already present,
    in order, and appends its two header lines after them; it does not
    replace headers of the same name, so [k] passes through the hook leave
    [k] copies of the pair. *)
Theorem after_request_appends {B : Type} (k : nat) (r : response_object B) :
  response_body (Nat.iter k after_request r) = response_body r /\
  response_status (Nat.iter k after_request r) = response_status r /\
  response_headers (Nat.iter k after_request r) =
    response_headers r ++ concat (replicate k cors_headers).
Proof.
  induction k as [|k (Hb & Hs & Hh)].
  - simpl. by rewrite app_nil_r.
  - change (Nat.iter (S k) after_request r)
      with (after_request (Nat.iter k after_request r)).
    rewrite concat_replicate_S, app_assoc, <- Hh, <- Hb, <- Hs.
    repeat split. unfold after_request, headers_add, cors_headers. simpl.
    by rewrite <- app_assoc.
Qed.

(** ** The delayed class of a classifier without labels *)

(** C2.  Evaluation at a classifier that has no [classes_] attribute and
    answers with the one-entry distribution [[p]], on the sample request:
    the classifier labels no class 1, yet its single entry is not used.
    The default labels [[0, 1]] make [classes.index(1)] return 1, so the
    positional fallback is never consulted, and [proba[1]] ends the
    request with [IndexError]. *)
Theorem unlabelled_single_entry_raises
  {F : Type} `{FloatOps F} (n : nat) (p : F) :
  classes_ {| predict_proba := fun _ => inr [[p]]; classes_ := None |} = None /\
  find_delayed_index
    (classes_of {| predict_proba := fun _ => inr [[p]]; classes_ := None |})
    [p] = ([], inr 1%nat) /\
  prediction n {| predict_proba := fun _ => inr [[p]]; classes_ := None |}
    (Some sample_request) =
    ([ [ {| Carrier := PyStr "DL"; OriginAirportID := 15304;
            DestAirportID := Some 12892; DayOfWeekName := "Monday" |} ] ],
     inl IndexError).
Proof. by repeat split. Qed.

(** ** The required fields, on the whole handler *)

Section RequiredFields.

Context {F : Type} `{FloatOps F}.
Variable n : nat.
Variable model : Classifier F.

Lemma not_infinite_no_overflow v :
  ~ is_infinite v -> int n v <> inl OverflowError.
Proof. intros Hv Hi. by apply int_overflow_iff in Hi. Qed.

(** The outcome of a request object none of whose converted fields is an
    infinite float. *)
Lemma prediction_of_object d :
  ~ is_infinite (raw_field d "airport_id" PyNone) ->
  ~ is_infinite (raw_field d "day_of_week" PyNone) ->
  ~ is_infinite (raw_field d "origin_airport_id" (PyInt 0)) ->
  exists v,
    validate n (PyDict d) = ([], inr v) /\
    guarded (int n (raw_field d "airport_id" PyNone)) Some None
      (airport_id_ v) /\
    guarded (int n (raw_field d "day_of_week" PyNone)) Some None
      (day_of_week v) /\
    errors v = errors_of (airport_id_ v) (day_of_week v) /\
    (errors v <> ∅ ->
       prediction n model (Some (PyDict d)) =
         ([], inr (Errors (errors v), 400))) /\
    (errors v = ∅ ->
       prediction n model (Some (PyDict d)) = predict model v).
Proof.
  intros Ha Hd Ho.
  destruct (validate_complete n d) as [v Hv];
    auto using not_infinite_no_overflow.
  pose proof (validate_inv _ _ _ _ Hv) as (_ & Hga & Hgd & _ & _ & Herr).
  exists v. repeat split; try done.
  - intros He. rewrite <- payload_of_object in Hv.
    by rewrite (prediction_rejects n model _ _ _ Hv He).
  - intros He. rewrite <- payload_of_object in Hv.
    by rewrite (prediction_accepts n model _ _ _ Hv He).
Qed.



End RequiredFields.



(** ** The [airport_id] field, on the whole handler *)

(** C3, amended.  For every request object none of whose [airport_id],
    [day_of_week] and [origin_airport_id] is an infinite float, the
    validation block completes, and [airport_id] is accepted exactly when
    [int()] converts the raw value: an integer is kept, a boolean counts as
    0 or 1, a finite float is truncated toward zero, and a string (of code
    points below 256) is accepted when [int_of_str] reads it as a decimal
    integer literal within the interpreter's cap [n] on digits.  A missing
    field, [null], NaN, any other string, an array and an object are
    rejected.  A rejected [airport_id] is answered, without a classifier
    call, by the 400 response whose error object holds "airport_id is
    required" under [airport_id]; an accepted one never appears in an error
    object and is the destination of every feature row submitted.  There
    is no third outcome. *)
Theorem airport_id_validation
  {F : Type} `{FloatOps F} (n : nat) (model : Classifier F)
  (d : gmap string pyobj) :
  ~ is_infinite (raw_field d "airport_id" PyNone) ->
  ~ is_infinite (raw_field d "day_of_week" PyNone) ->
  ~ is_infinite (raw_field d "origin_airport_id" (PyInt 0)) ->
  exists v,
    validate n (PyDict d) = ([], inr v) /\
    (d !! "airport_id" = None -> airport_id_rejected v) /\
    match raw_field d "airport_id" PyNone with
    | PyInt z => airport_id_accepted v z
    | PyBool b => airport_id_accepted v (if b then 1 else 0)
    | PyFloat (FFinite m e) => airport_id_accepted v (float_trunc m e)
    | PyFloat (FInf _) => False
    | PyStr s =>
        match int_of_str n s with
        | Some z => airport_id_accepted v z
        | None => airport_id_rejected v
        end
    | PyNone | PyFloat FNaN | PyList _ | PyDict _ => airport_id_rejected v
    end /\
    ((exists z, airport_id_accepted v z) \/ airport_id_rejected v) /\
    (airport_id_rejected v ->
       exists errs,
         prediction n model (Some (PyDict d)) = ([], inr (Errors errs, 400)) /\
         errs !! "airport_id" = Some "airport_id is required") /\
    (forall z,
        airport_id_accepted v z ->
        (forall errs status,
            outcome (prediction n model (Some (PyDict d))) =
              inr (Errors errs, status) ->
            errs !! "airport_id" = None) /\
        (forall frame row,
            frame ∈ trace (prediction n model (Some (PyDict d))) ->
            row ∈ frame -> DestAirportID row = Some z)).
Proof.
  intros Hna Hnd Hno.
  destruct (prediction_of_object n model d Hna Hnd Hno)
    as (v & Hv & Ha & _ & Herr & Hreject & _).
  exists v. split; [done|].
  unfold airport_id_accepted, airport_id_rejected.
  rewrite Herr, errors_of_airport_id. repeat split.
  - unfold raw_field in Ha. rewrite H0 in Ha. simpl in Ha.
    by destruct Ha as [(z & [=] & _)|[_ ->]].
  - unfold raw_field in Ha. rewrite H0 in Ha. simpl in Ha.
    by destruct Ha as [(z & [=] & _)|[_ ->]].
  - destruct (raw_field d "airport_id" PyNone) as [|b|z|[|neg|m e]|s|l|o];
      simpl in Ha; try destruct (int_of_str n s);
      try (by destruct Hna; eexists);
      destruct Ha as [(z' & Hi & Hz)|[[Hr|Hr] Hz]]; rewrite ?Hz; try done;
      by injection Hi as <-.
  - destruct (airport_id_ v) as [a|]; [left; by exists a|by right].
  - intros [Hnone Hmsg].
    exists (errors v). split.
    + apply Hreject. intros He.
      pose proof (errors_of_airport_id (airport_id_ v) (day_of_week v)) as La.
      rewrite <- Herr, He, lookup_empty, Hnone in La. done.
    + by rewrite Herr, errors_of_airport_id, Hnone.
  - intros errs status Hout.
    destruct H0 as [Hz _].
    apply prediction_errors_inv in Hout
      as (d' & v' & Hp & Hv' & _ & -> & _).
    rewrite payload_of_object in Hp. injection Hp as <-.
    rewrite Hv in Hv'. injection Hv' as <-.
    by rewrite Herr, errors_of_airport_id, Hz.
  - intros frame row Hin Hrow.
    destruct H0 as [Hz _].
    apply prediction_trace_inv in Hin
      as (d' & v' & name & Hp & Hv' & _ & _ & -> & _).
    rewrite payload_of_object in Hp. injection Hp as <-.
    rewrite Hv in Hv'. injection Hv' as <-.
    apply list_elem_of_singleton in Hrow. by subst row.
Qed.

Lemma airport_id_validation_witness :
  exists errs,
    prediction 4300 failing_model
      (Some (object_of [("airport_id", PyStr "12.0");
                        ("day_of_week", PyInt 1)])) =
      ([], inr (Errors errs, 400)) /\
    errs !! "airport_id" = Some "airport_id is required".
Proof.
  destruct (airport_id_validation 4300 failing_model
              (list_to_map [("airport_id", PyStr "12.0");
                            ("day_of_week", PyInt 1)]))
    as (v & _ & _ & Hkind & _ & Hrejected & _).
  - by intros [neg Hi].
  - by intros [neg Hi].
  - by intros [neg Hi].
  - exact (Hrejected Hkind).
Defined.
